(** * The property-search and location-trend pipelines of the real estate agent

    A shallow embedding of [ai_real_estate_agent_dubai.py]: the two methods of
    [PropertyFindingAgent] ([find_properties], [get_location_trends]) and the
    search branch of [main], over a small model of the Python values and
    string methods they use.  The extraction service (Firecrawl), the
    text-generation agent and the Streamlit widgets are the environment: every
    call to them is recorded in a trace, and their replies come from a
    [world]. *)

From Stdlib Require Import String Ascii DecimalString.
From Stdlib Require Import List Bool Arith NArith ZArith Lia.
Import ListNotations.

Local Open Scope list_scope.

#[local] Set Warnings "-register-all".

(** ** Python [str]: a sequence of Unicode code points *)

Module PyStr.

Definition pystr := list N.

(** The source file is UTF-8: a literal of the model is written as the same
    bytes and decoded into code points. *)
Fixpoint utf8_decode (bs : list N) : pystr :=
  match bs with
  | [] => []
  | b0 :: r0 =>
    if (b0 <? 128)%N then b0 :: utf8_decode r0
    else if (b0 <? 224)%N then
      match r0 with
      | b1 :: r1 => ((b0 - 192) * 64 + (b1 - 128))%N :: utf8_decode r1
      | [] => []
      end
    else if (b0 <? 240)%N then
      match r0 with
      | b1 :: b2 :: r2 =>
        ((b0 - 224) * 4096 + (b1 - 128) * 64 + (b2 - 128))%N :: utf8_decode r2
      | _ => []
      end
    else
      match r0 with
      | b1 :: b2 :: b3 :: r3 =>
        ((b0 - 240) * 262144 + (b1 - 128) * 4096 + (b2 - 128) * 64 + (b3 - 128))%N
          :: utf8_decode r3
      | _ => []
      end
  end.

Definition py (s : string) : pystr :=
  utf8_decode (map N_of_ascii (list_ascii_of_string s)).

Arguments py s%_string : simpl never.

(** [Py_UNICODE_ISSPACE]: the characters [str.strip()] removes. *)
Definition isspace (c : N) : bool :=
  ((9 <=? c) && (c <=? 13) || (28 <=? c) && (c <=? 32)
   || (c =? 133) || (c =? 160) || (c =? 5760)
   || (8192 <=? c) && (c <=? 8202)
   || (c =? 8232) || (c =? 8233) || (c =? 8239) || (c =? 8287) || (c =? 12288))%N.

Fixpoint lstrip (s : pystr) : pystr :=
  match s with
  | [] => []
  | c :: r => if isspace c then lstrip r else s
  end.

Definition rstrip (s : pystr) : pystr := rev (lstrip (rev s)).

(** [s.strip()] *)
Definition strip (s : pystr) : pystr := rstrip (lstrip s).

(** What the Unicode character database decides and the source does not
    contain: the lower-case mapping of a non-ASCII character (one to three
    code points, chosen by CPython's [lower_ucs4] from the whole string and
    the position, because of the final sigma), and which non-ASCII characters
    are printable. *)
Record unicode_db := {
  lower_full : pystr -> nat -> pystr;
  isprintable : N -> bool
}.

Definition is_ascii (c : N) : bool := (c <? 128)%N.

Definition ascii_lower (c : N) : N :=
  if ((65 <=? c) && (c <=? 90))%N then (c + 32)%N else c.

Fixpoint lower_from (db : unicode_db) (s : pystr) (i : nat) (rest : pystr) : pystr :=
  match rest with
  | [] => []
  | c :: r =>
    (if is_ascii c then [ascii_lower c] else lower_full db s i)
      ++ lower_from db s (S i) r
  end.

(** [s.lower()] *)
Definition lower (db : unicode_db) (s : pystr) : pystr := lower_from db s 0 s.

(** [s.startswith(p)] *)
Fixpoint startswith (s p : pystr) {struct p} : bool :=
  match p, s with
  | [], _ => true
  | _ :: _, [] => false
  | a :: p', c :: s' => (a =? c)%N && startswith s' p'
  end.

(** [s.endswith(p)] *)
Definition endswith (s p : pystr) : bool := startswith (rev s) (rev p).

(** The scan of [s.replace(old, new)] for a non-empty [old]: occurrences are
    taken left to right and do not overlap; [skip] counts the characters of
    an occurrence still to be passed over. *)
Fixpoint replace_scan (old new : pystr) (skip : nat) (s : pystr) : pystr :=
  match s with
  | [] => []
  | c :: r =>
    match skip with
    | S k => replace_scan old new k r
    | O =>
      if startswith s old
      then new ++ replace_scan old new (List.length old - 1) r
      else c :: replace_scan old new 0 r
    end
  end.

(** [s.replace(old, new)] *)
Definition replace (s old new : pystr) : pystr :=
  match old with
  | [] => new ++ flat_map (fun c => c :: new) s
  | _ :: _ => replace_scan old new 0 s
  end.

(** [sep.join(parts)] *)
Fixpoint join (sep : pystr) (parts : list pystr) : pystr :=
  match parts with
  | [] => []
  | [p] => p
  | p :: ps => p ++ sep ++ join sep ps
  end.

Definition hex_digit (d : N) : N :=
  if (d <? 10)%N then (48 + d)%N else (87 + d)%N.

Fixpoint hex_digits (width : nat) (n : N) : pystr :=
  match width with
  | O => []
  | S w => hex_digits w (n / 16)%N ++ [hex_digit (n mod 16)%N]
  end.

Definition repr_quote (s : pystr) : N :=
  if existsb (N.eqb 39) s && negb (existsb (N.eqb 34) s) then 34%N else 39%N.

Definition repr_char (db : unicode_db) (quote c : N) : pystr :=
  if ((c =? quote) || (c =? 92))%N then [92%N; c]
  else if (c =? 9)%N then py "\t"
  else if (c =? 10)%N then py "\n"
  else if (c =? 13)%N then py "\r"
  else if ((c <? 32) || (c =? 127))%N then py "\x" ++ hex_digits 2 c
  else if (c <? 127)%N then [c]
  else if isprintable db c then [c]
  else if (c <=? 255)%N then py "\x" ++ hex_digits 2 c
  else if (c <=? 65535)%N then py "\u" ++ hex_digits 4 c
  else py "\U" ++ hex_digits 8 c.

(** [repr(s)] of a string *)
Definition str_repr (db : unicode_db) (s : pystr) : pystr :=
  let q := repr_quote s in
  [q] ++ flat_map (repr_char db q) s ++ [q].

(** [repr(n)] of an integer *)
Definition int_repr (z : Z) : pystr :=
  py (NilZero.string_of_int (Z.to_int z)).

(** Containment as Python's [needle in hay]. *)
Definition Infix (needle hay : pystr) : Prop :=
  exists before after, hay = before ++ needle ++ after.

Fixpoint contains (hay needle : pystr) : bool :=
  startswith hay needle
  || match hay with
     | [] => false
     | _ :: r => contains r needle
     end.

End PyStr.

Import PyStr.

(** ** Python values *)

(** A float as this program observes it: it never computes with one, it
    formats it into a prompt ([repr]) and may test its truth value. *)
Record pyfloat := {
  float_repr : pystr;
  float_nonzero : bool
}.

(** An instance of a class (a typed response object, say), observed through
    its class name, [repr()], [str()] and [bool()]; it has no [get] method. *)
Record pyobject := {
  obj_class : pystr;
  obj_repr : pystr;
  obj_str : pystr;
  obj_truth : bool
}.

Inductive pyval :=
| PNone
| PBool (b : bool)
| PInt (z : Z)
| PFloat (f : pyfloat)
| PStr (s : pystr)
| PList (items : list pyval)
| PDict (entries : list (pystr * pyval))
| PObj (o : pyobject).

Fixpoint pystr_eqb (a b : pystr) : bool :=
  match a, b with
  | [], [] => true
  | x :: a', y :: b' => (x =? y)%N && pystr_eqb a' b'
  | _, _ => false
  end.

(** The entry of a dict under a key, if any. *)
Fixpoint dict_get (key : pystr) (entries : list (pystr * pyval)) : option pyval :=
  match entries with
  | [] => None
  | (k, v) :: rest => if pystr_eqb k key then Some v else dict_get key rest
  end.

(** [bool(v)] *)
Definition truthy (v : pyval) : bool :=
  match v with
  | PNone => false
  | PBool b => b
  | PInt z => negb (z =? 0)%Z
  | PFloat f => float_nonzero f
  | PStr s => negb (Nat.eqb (List.length s) 0)
  | PList items => negb (Nat.eqb (List.length items) 0)
  | PDict entries => negb (Nat.eqb (List.length entries) 0)
  | PObj o => obj_truth o
  end.

(** [type(v).__name__] *)
Definition type_name (v : pyval) : pystr :=
  match v with
  | PNone => py "NoneType"
  | PBool _ => py "bool"
  | PInt _ => py "int"
  | PFloat _ => py "float"
  | PStr _ => py "str"
  | PList _ => py "list"
  | PDict _ => py "dict"
  | PObj o => obj_class o
  end.

(** [repr(v)] *)
Fixpoint py_repr (db : unicode_db) (v : pyval) : pystr :=
  match v with
  | PNone => py "None"
  | PBool b => if b then py "True" else py "False"
  | PInt z => int_repr z
  | PFloat f => float_repr f
  | PStr s => str_repr db s
  | PList items => py "[" ++ join (py ", ") (map (py_repr db) items) ++ py "]"
  | PDict entries =>
    py "{"
    ++ join (py ", ")
         (map (fun kv => str_repr db (fst kv) ++ py ": " ++ py_repr db (snd kv)) entries)
    ++ py "}"
  | PObj o => obj_repr o
  end.

(** [str(v)], which is what an f-string's [{v}] inserts. *)
Definition py_str (db : unicode_db) (v : pyval) : pystr :=
  match v with
  | PStr s => s
  | PObj o => obj_str o
  | _ => py_repr db v
  end.

(** ** Exceptions and results *)

Inductive exn :=
| KeyError (key : pystr)
| AttributeError (type attr : pystr)
| ServiceError (message : pystr).

Inductive outcome (A : Type) :=
| Ok (a : A)
| Raise (e : exn).

Arguments Ok {A} a.
Arguments Raise {A} e.

(** [str(e)] *)
Definition exn_str (db : unicode_db) (e : exn) : pystr :=
  match e with
  | KeyError key => str_repr db key
  | AttributeError type attr =>
    py "'" ++ type ++ py "' object has no attribute '" ++ attr ++ py "'"
  | ServiceError message => message
  end.

(** [d[key]] *)
Definition getitem (entries : list (pystr * pyval)) (key : pystr) : outcome pyval :=
  match dict_get key entries with
  | Some v => Ok v
  | None => Raise (KeyError key)
  end.

(** [v.get(key, default)] *)
Definition get_default (v : pyval) (key : pystr) (default : pyval) : outcome pyval :=
  match v with
  | PDict entries =>
    Ok (match dict_get key entries with Some x => x | None => default end)
  | _ => Raise (AttributeError (type_name v) (py "get"))
  end.

(** ** The environment: extraction service, generator, console and widgets *)

(** The pydantic model whose JSON schema is sent with an extraction. *)
Inductive response_model := PropertiesResponse | LocationsResponse.

Record extract_request := {
  req_urls : list pystr;
  req_prompt : pystr;
  req_schema : response_model
}.

Inductive widget :=
| StError | StSuccess | StSubheader | StMarkdown | StDivider | StSpinner | StExpander.

Inductive event :=
| EvPrint (label : pystr) (value : pyval)
| EvExtract (request : extract_request)
| EvRun (instruction : pystr)
| EvSt (w : widget) (text : pystr).

(** What the two services answer: [firecrawl.extract] returns a value or
    raises, [agent.run(...).content] is a text or the call raises. *)
Record world := {
  firecrawl_extract : extract_request -> outcome pyval;
  agent_run : pystr -> outcome pystr
}.

(** A computation runs in a world, extends the trace of calls made so far,
    and returns or raises. *)
Definition M (A : Type) : Type := world -> list event -> outcome A * list event.

Definition ret {A} (a : A) : M A := fun _ t => (Ok a, t).

Definition bind {A B} (m : M A) (k : A -> M B) : M B :=
  fun w t =>
    match m w t with
    | (Ok a, t') => k a w t'
    | (Raise e, t') => (Raise e, t')
    end.

Notation "x <- m ;; k" := (bind m (fun x => k))
  (at level 61, m at next level, right associativity).
Notation "m ;;; k" := (bind m (fun _ => k))
  (at level 61, right associativity).

Definition lift {A} (o : outcome A) : M A := fun _ t => (o, t).

Definition and_then {A B} (o : outcome A) (k : A -> outcome B) : outcome B :=
  match o with
  | Ok a => k a
  | Raise e => Raise e
  end.

Definition emit (e : event) : M unit := fun _ t => (Ok tt, t ++ [e]).

Definition print (label : pystr) (value : pyval) : M unit := emit (EvPrint label value).

Definition st (w : widget) (text : pystr) : M unit := emit (EvSt w text).

Definition extract (request : extract_request) : M pyval :=
  fun w t => (firecrawl_extract w request, t ++ [EvExtract request]).

Definition run (instruction : pystr) : M pystr :=
  fun w t => (agent_run w instruction, t ++ [EvRun instruction]).

(** [try: body except Exception as e: handler(e)] *)
Definition try_except {A} (body : M A) (handler : exn -> M A) : M A :=
  fun w t =>
    match body w t with
    | (Ok a, t') => (Ok a, t')
    | (Raise e, t') => handler e w t'
    end.

(** A call from an empty trace. *)
Definition exec {A} (m : M A) (w : world) : outcome A * list event := m w [].

(** The instructions sent to the generator, in order. *)
Fixpoint generation_calls (t : list event) : list pystr :=
  match t with
  | [] => []
  | EvRun instruction :: r => instruction :: generation_calls r
  | _ :: r => generation_calls r
  end.

(** The requests sent to the extraction service, in order. *)
Fixpoint extraction_calls (t : list event) : list extract_request :=
  match t with
  | [] => []
  | EvExtract request :: r => request :: extraction_calls r
  | _ :: r => extraction_calls r
  end.

(** The messages shown with [st.error], in order. *)
Fixpoint reported_errors (t : list event) : list pystr :=
  match t with
  | [] => []
  | EvSt StError text :: r => text :: reported_errors r
  | _ :: r => reported_errors r
  end.

(** ** [PropertyFindingAgent] *)

(** The prompt of [find_properties] for the extraction service. *)
Definition property_prompt (property_category property_type city : pystr) (max_price : pyfloat) : pystr :=
  py "Extract ONLY 10 OR LESS different "
  ++ property_category
  ++ py " "
  ++ property_type
  ++ py " along with property link from "
  ++ city
  ++ py " that cost less than "
  ++ float_repr max_price
  ++ py " millions.
                
                Requirements:
                - Property Category: "
  ++ property_category
  ++ py " properties only
                - Property Type: "
  ++ property_type
  ++ py " only
                - Location: "
  ++ city
  ++ py "
                - Maximum Price: "
  ++ float_repr max_price
  ++ py " Millions
                - Include complete property details with exact location
                - IMPORTANT: Return data for at least 3 different properties. MAXIMUM 10. must mix the property list from all urls.
                - Format as a list of properties with their respective details
                ".

(** The instruction of [find_properties] for the generator. *)
Definition analysis_instruction (db : unicode_db) (properties : pyval)
    (property_category property_type : pystr) (max_price : pyfloat) : pystr :=
  py "As a real estate expert, analyze these properties and market trends:

            Properties Found in json format:
            "
  ++ py_str db properties
  ++ py "

            **IMPORTANT INSTRUCTIONS:**
            1. ONLY analyze properties from the above JSON data that match the user's requirements:
               - Property Category: "
  ++ property_category
  ++ py "
               - Property Type: "
  ++ property_type
  ++ py "
               - Maximum Price: "
  ++ float_repr max_price
  ++ py " millions
            2. DO NOT create new categories or property types
            3. From the matching properties, select 5-6 properties with prices closest to "
  ++ float_repr max_price
  ++ py " millions

            Please provide your analysis in this format:
            
            🏠 SELECTED PROPERTIES
            • List only 5-6 best matching properties with prices closest to "
  ++ float_repr max_price
  ++ py " millions
            • For each property include:
              - Name and Location along with link to the property as cta button
              - Price (with value analysis)
              - Key Features
              - Pros and Cons

            💰 BEST VALUE ANALYSIS
            • Compare the selected properties based on:
              - Price per sq ft
              - Location advantage
              - Amenities offered

            📍 LOCATION INSIGHTS
            • Specific advantages of the areas where selected properties are located

            💡 RECOMMENDATIONS
            • Top 3 properties from the selection with reasoning
            • Investment potential
            • Points to consider before purchase

            🤝 NEGOTIATION TIPS
            • Property-specific negotiation strategies

            Format your response in a clear, structured way using the above sections.
            ".

(** The prompt of [get_location_trends] for the extraction service. *)
Definition trend_prompt : pystr :=
  py "Extract price trends data for ALL major localities in the city. 
            IMPORTANT: 
            - Return data for at least 5-10 different localities
            - Include both premium and affordable areas
            - Do not skip any locality mentioned in the source
            - Format as a list of locations with their respective data
            ".

(** The instruction of [get_location_trends] for the generator. *)
Definition trend_instruction (db : unicode_db) (city : pystr) (locations : pyval) : pystr :=
  py "As a real estate expert, analyze these location price trends for "
  ++ city
  ++ py ":

                "
  ++ py_str db locations
  ++ py "

                Please provide:
                1. A bullet-point summary of the price trends for each location
                2. Identify the top 3 locations with:
                   - Highest price appreciation
                   - Best rental yields
                   - Best value for money
                3. Investment recommendations:
                   - Best locations for long-term investment
                   - Best locations for rental income
                   - Areas showing emerging potential
                4. Specific advice for investors based on these trends

                Format the response as follows:
                
                📊 LOCATION TRENDS SUMMARY
                • [Bullet points for each location]

                🏆 TOP PERFORMING AREAS
                • [Bullet points for best areas]

                💡 INVESTMENT INSIGHTS
                • [Bullet points with investment advice]

                🎯 RECOMMENDATIONS
                • [Bullet points with specific recommendations]
                ".

(** [s.strip().lower().replace(" ", "-")], the form in which a city or a
    property type enters a URL. *)
Definition formatted (db : unicode_db) (s : pystr) : pystr :=
  replace (lower db (strip s)) (py " ") (py "-").

(** [isinstance(raw_response, dict) and raw_response.get('success')]: the
    entries of the response when the test passes. *)
Definition success_envelope (raw_response : pyval) : option (list (pystr * pyval)) :=
  match raw_response with
  | PDict entries =>
    match dict_get (py "success") entries with
    | Some flag => if truthy flag then Some entries else None
    | None => None
    end
  | _ => None
  end.

(** [raw_response['data'].get(field, [])] *)
Definition data_field (entries : list (pystr * pyval)) (field : pystr) : outcome pyval :=
  and_then (getitem entries (py "data"))
           (fun data => get_default data field (PList [])).

(** The [properties] that [find_properties] keeps from the response. *)
Definition processed_properties (raw_response : pyval) : outcome pyval :=
  match success_envelope raw_response with
  | Some entries => data_field entries (py "properties")
  | None => Ok (PList [])
  end.

Definition property_urls (db : unicode_db) (city property_type : pystr) : list pystr :=
  let formatted_location := formatted db city in
  let formatted_property_type := formatted db property_type in
  [ py "https://www.propertyfinder.ae/en/buy/dubai/" ++ formatted_property_type
    ++ py "-for-sale-" ++ formatted_location ++ py ".html" ].

(** The arguments of [self.firecrawl.extract] in [find_properties]. *)
Definition property_request (db : unicode_db) (city : pystr) (max_price : pyfloat)
    (property_category property_type : pystr) : extract_request :=
  {| req_urls := property_urls db city property_type;
     req_prompt := property_prompt property_category property_type city max_price;
     req_schema := PropertiesResponse |}.

Definition find_properties (db : unicode_db) (city : pystr) (max_price : pyfloat)
    (property_category property_type : pystr) : M pystr :=
  let urls := property_urls db city property_type in
  print (py "Urls:") (PList (map PStr urls)) ;;;
  raw_response <-
    extract (property_request db city max_price property_category property_type) ;;
  print (py "Raw Property Response:") raw_response ;;;
  properties <- lift (processed_properties raw_response) ;;
  print (py "Processed Properties:") properties ;;;
  content <-
    run (analysis_instruction db properties property_category property_type max_price) ;;
  ret content.

Definition trend_urls (db : unicode_db) (city : pystr) : list pystr :=
  let formatted_location := formatted db city in
  [ py "https://www.propertyfinder.ae/en/area-insights/dubai/" ++ formatted_location ].

Definition no_trends : pystr := py "No price trends data available".

(** The arguments of [self.firecrawl.extract] in [get_location_trends]. *)
Definition trend_request (db : unicode_db) (city : pystr) : extract_request :=
  {| req_urls := trend_urls db city;
     req_prompt := trend_prompt;
     req_schema := LocationsResponse |}.

Definition get_location_trends (db : unicode_db) (city : pystr) : M pystr :=
  let trndurl := trend_urls db city in
  print (py "Trend Url:") (PList (map PStr trndurl)) ;;;
  raw_response <- extract (trend_request db city) ;;
  print (py "Trend raw resonse:") raw_response ;;;
  match success_envelope raw_response with
  | Some entries =>
    locations <- lift (data_field entries (py "locations")) ;;
    content <- run (trend_instruction db city locations) ;;
    ret content
  | None => ret no_trends
  end.

(** ** The search branch of [main] *)

(** The values of the four inputs and of the search button. *)
Record search_form := {
  form_city : pystr;
  form_property_category : pystr;
  form_max_price : pyfloat;
  form_property_type : pystr;
  start_search : bool
}.

Definition main (db : unicode_db) (form : search_form) : M unit :=
  if start_search form then
    if negb (truthy (PStr (form_city form))) then
      st StError (py "⚠️ Please enter a area name!")
    else
      try_except
        (st StSpinner (py "🔍 Searching for properties...") ;;;
         property_results <-
           find_properties db (form_city form) (form_max_price form)
             (form_property_category form) (form_property_type form) ;;
         st StSuccess (py "✅ Property search completed!") ;;;
         st StSubheader (py "🏘️ Property Recommendations") ;;;
         st StMarkdown property_results ;;;
         st StDivider [] ;;;
         st StSpinner (py "📊 Analyzing location trends...") ;;;
         location_trends <- get_location_trends db (form_city form) ;;
         st StSuccess (py "✅ Location analysis completed!") ;;;
         st StExpander (py "📈 Location Trends Analysis of the city") ;;;
         st StMarkdown location_trends)
        (fun e => st StError (py "❌ An error occurred: " ++ exn_str db e))
  else ret tt.

(** ** Shapes of an extraction response *)

(** The responses that are not a success envelope: not a dict, a dict with
    no [success] key, or a dict whose [success] entry is falsy. *)
Inductive non_success : pyval -> Prop :=
| NotADict (v : pyval) :
    (forall entries, v <> PDict entries) -> non_success v
| NoSuccessKey (entries : list (pystr * pyval)) :
    dict_get (py "success") entries = None -> non_success (PDict entries)
| FalsySuccess (entries : list (pystr * pyval)) (flag : pyval) :
    dict_get (py "success") entries = Some flag ->
    truthy flag = false ->
    non_success (PDict entries).

(** ** The specification's wording of the URL normalization

    Section 4.1 of the specification describes the normalization as
    lower-casing, trimming and replacing internal whitespace with a single
    hyphen.  Two readings, to compare with [formatted]. *)

(** Every run of whitespace becomes one hyphen. *)
Fixpoint hyphenate_runs (in_run : bool) (s : pystr) : pystr :=
  match s with
  | [] => []
  | c :: r =>
    if isspace c
    then (if in_run then hyphenate_runs true r else 45%N :: hyphenate_runs true r)
    else c :: hyphenate_runs false r
  end.

Definition spec_segment_runs (db : unicode_db) (s : pystr) : pystr :=
  hyphenate_runs false (strip (lower db s)).

(** Every whitespace character becomes one hyphen. *)
Definition spec_segment_each (db : unicode_db) (s : pystr) : pystr :=
  map (fun c => if isspace c then 45%N else c) (strip (lower db s)).

(** The strings on which the two readings say the same: the only whitespace
    is the space character, and no two spaces are adjacent. *)
Fixpoint single_spaced (after_space : bool) (s : pystr) : bool :=
  match s with
  | [] => true
  | c :: r =>
    if isspace c
    then (c =? 32)%N && negb after_space && single_spaced true r
    else single_spaced false r
  end.

(** What [replace(" ", "-")] does to one character. *)
Definition space_to_hyphen (c : N) : N := if (c =? 32)%N then 45%N else c.

(** ** Sample inputs and environments *)

(** A character database for strings of ASCII characters, on which it is
    never consulted: other characters are their own lower case and are
    printable. *)
Definition caseless_db : unicode_db :=
  {| lower_full := fun s i => firstn 1 (skipn i s);
     isprintable := fun _ => true |}.

(** A world whose services answer every request the same way. *)
Definition constant_world (reply : outcome pyval) (content : outcome pystr) : world :=
  {| firecrawl_extract := fun _ => reply; agent_run := fun _ => content |}.

Definition ten_millions : pyfloat :=
  {| float_repr := py "10.0"; float_nonzero := true |}.

Definition marina_gate : pyval :=
  PDict [ (py "Building_name", PStr (py "Marina Gate"));
          (py "Property_type", PStr (py "Apartment"));
          (py "location_address", PStr (py "Dubai Marina, Dubai"));
          (py "Price", PStr (py "3,200,000 AED"));
          (py "Size", PStr (py "1,150 sqft"));
          (py "Description", PStr (py "Two bedrooms with a marina view"));
          (py "property_link", PStr (py "https://www.propertyfinder.ae/en/plp/1")) ].

(** A success envelope with the same property listed twice. *)
Definition two_properties_reply : pyval :=
  PDict [ (py "success", PBool true);
          (py "data", PDict [ (py "properties", PList [marina_gate; marina_gate]) ]);
          (py "status", PStr (py "completed"));
          (py "expiresAt", PStr (py "2025-01-01T00:00:00.000Z")) ].

(** A failure envelope. *)
Definition failure_reply : pyval :=
  PDict [ (py "success", PBool false); (py "status", PStr (py "failed")) ].

(** A response with a truthy [success] and no [data]. *)
Definition success_without_data : pyval :=
  PDict [ (py "success", PBool true) ].

(** A successful trend extraction that found no locality. *)
Definition no_locations_reply : pyval :=
  PDict [ (py "success", PBool true);
          (py "data", PDict [ (py "locations", PList []) ]) ].

(** A typed response object instead of a dict. *)
Definition typed_response : pyval :=
  PObj {| obj_class := py "ExtractResponse";
          obj_repr := py "ExtractResponse(success=True)";
          obj_str := py "success=True";
          obj_truth := true |}.

Definition a_narrative : pystr := py "SELECTED PROPERTIES".

(** ** Further observations of a trace *)

Definition widget_eqb (a b : widget) : bool :=
  match a, b with
  | StError, StError | StSuccess, StSuccess | StSubheader, StSubheader
  | StMarkdown, StMarkdown | StDivider, StDivider | StSpinner, StSpinner
  | StExpander, StExpander => true
  | _, _ => false
  end.

(** The texts shown with one kind of widget, in order. *)
Fixpoint shown (kind : widget) (t : list event) : list pystr :=
  match t with
  | [] => []
  | EvSt w text :: r =>
    if widget_eqb w kind then text :: shown kind r else shown kind r
  | _ :: r => shown kind r
  end.

(** The message of the [except] branch of [main]. *)
Definition error_report (db : unicode_db) (e : exn) : pystr :=
  py "❌ An error occurred: " ++ exn_str db e.

(** A string with no whitespace at either end. *)
Definition trimmed (s : pystr) : bool :=
  match s with [] => true | c :: _ => negb (isspace c) end
  && match rev s with [] => true | c :: _ => negb (isspace c) end.

(** ** The agent kept in the session *)

(** [st.session_state] as this program uses it: objects stored under string
    keys, in insertion order.  A stored [PropertyFindingAgent] is known by
    what its extraction client and its generator answer, a [world]. *)
Definition session_state := list (pystr * world).

(** [key in st.session_state], with the object found. *)
Fixpoint session_get (key : pystr) (s : session_state) : option world :=
  match s with
  | [] => None
  | (k, agent) :: rest => if pystr_eqb k key then Some agent else session_get key rest
  end.

(** [st.session_state[key] = agent] *)
Fixpoint session_set (key : pystr) (agent : world) (s : session_state) : session_state :=
  match s with
  | [] => [(key, agent)]
  | (k, old) :: rest =>
    if pystr_eqb k key then (k, agent) :: rest
    else (k, old) :: session_set key agent rest
  end.

(** [create_property_agent()]; [fresh] is the agent that
    [PropertyFindingAgent()] constructs. *)
Definition create_property_agent (fresh : world) (s : session_state) : session_state :=
  match session_get (py "property_agent") s with
  | None => session_set (py "property_agent") fresh s
  | Some _ => s
  end.

(** ** More sample inputs *)

(** A success envelope whose [data] is [None]. *)
Definition null_data_reply : pyval :=
  PDict [ (py "success", PBool true); (py "data", PNone) ].

(** A success envelope whose [data] is an empty dict. *)
Definition empty_data_reply : pyval :=
  PDict [ (py "success", PBool true); (py "data", PDict []) ].

(** A world whose extraction service is down. *)
Definition extraction_down : world :=
  constant_world (Raise (ServiceError (py "Request Timeout"))) (Ok a_narrative).

(** A world that answers property extractions and fails on trend
    extractions. *)
Definition trends_down : world :=
  {| firecrawl_extract := fun request =>
       match req_schema request with
       | PropertiesResponse => Ok two_properties_reply
       | LocationsResponse => Raise (ServiceError (py "Request Timeout"))
       end;
     agent_run := fun _ => Ok a_narrative |}.

Definition business_bay_form : search_form :=
  {| form_city := py "Business Bay";
     form_property_category := py "Residential";
     form_max_price := ten_millions;
     form_property_type := py "Apartments";
     start_search := true |}.

(** * Properties *)

(** ** Strings *)

Lemma startswith_prefix (p r : pystr) : startswith (p ++ r) p = true.
Proof.
  induction p as [|a p IH]; simpl; [reflexivity|].
  now rewrite N.eqb_refl, IH.
Qed.

Lemma startswith_split (s p : pystr) :
  startswith s p = true -> exists r, s = p ++ r.
Proof.
  revert s; induction p as [|a p IH]; intros s H.
  - now exists s.
  - destruct s as [|c s]; simpl in H; [discriminate|].
    apply andb_true_iff in H as [Hac Hrest].
    apply N.eqb_eq in Hac; subst c.
    destruct (IH _ Hrest) as [r ->].
    now exists r.
Qed.

Lemma contains_unfold (hay needle : pystr) :
  contains hay needle
  = startswith hay needle
    || match hay with
       | [] => false
       | _ :: r => contains r needle
       end.
Proof. destruct hay; reflexivity. Qed.

Lemma contains_Infix (hay needle : pystr) :
  contains hay needle = true <-> Infix needle hay.
Proof.
  split.
  - induction hay as [|c hay IH]; simpl; intros H.
    + rewrite orb_false_r in H.
      destruct (startswith_split _ _ H) as [r Hr].
      now exists [], r.
    + apply orb_true_iff in H as [H|H].
      * destruct (startswith_split _ _ H) as [r Hr].
        now exists [], r.
      * destruct (IH H) as (before & after & ->).
        now exists (c :: before), after.
  - intros (before & after & ->).
    induction before as [|c before IH].
    + rewrite app_nil_l, contains_unfold, startswith_prefix. reflexivity.
    + rewrite contains_unfold. cbn [app]. rewrite IH. apply orb_true_r.
Qed.

Lemma Infix_here (needle after : pystr) : Infix needle (needle ++ after).
Proof. now exists [], after. Qed.

Lemma Infix_later (needle before hay : pystr) :
  Infix needle hay -> Infix needle (before ++ hay).
Proof.
  intros (b & a & ->). exists (before ++ b), a. now rewrite <- app_assoc.
Qed.

Lemma Infix_earlier (needle hay after : pystr) :
  Infix needle hay -> Infix needle (hay ++ after).
Proof.
  intros (b & a & ->). exists b, (a ++ after). now rewrite <- !app_assoc.
Qed.

Lemma endswith_split (s p : pystr) :
  endswith s p = true -> exists cut, s = cut ++ p.
Proof.
  unfold endswith. intros H.
  destruct (startswith_split _ _ H) as [r Hr].
  exists (rev r).
  apply (f_equal (@rev N)) in Hr.
  now rewrite rev_involutive, rev_app_distr, rev_involutive in Hr.
Qed.

(** A needle [tail ++ x ++ head] lies across three consecutive pieces
    [left], [x], [right] when [left] ends with [tail] and [right] starts with
    [head]. *)
Lemma Infix_across (tail x head left right rest : pystr) :
  endswith left tail = true ->
  startswith right head = true ->
  Infix (tail ++ x ++ head) (left ++ x ++ right ++ rest).
Proof.
  intros Htail Hhead.
  destruct (endswith_split _ _ Htail) as [cut ->].
  destruct (startswith_split _ _ Hhead) as [r ->].
  exists cut, (r ++ rest). now rewrite <- !app_assoc.
Qed.

Lemma replace_single (a b : N) (s : pystr) :
  replace s [a] [b] = map (fun c => if (c =? a)%N then b else c) s.
Proof.
  unfold replace.
  induction s as [|c s IH]; [reflexivity|].
  cbn [replace_scan startswith map List.length Nat.sub].
  rewrite andb_true_r, (N.eqb_sym a c).
  destruct (c =? a)%N; cbn [app]; now rewrite IH.
Qed.

Lemma formatted_map (db : unicode_db) (s : pystr) :
  formatted db s = map space_to_hyphen (lower db (strip s)).
Proof.
  unfold formatted.
  change (py " ") with [32%N]; change (py "-") with [45%N].
  apply replace_single.
Qed.

Lemma lstrip_split (s : pystr) :
  exists lead, s = lead ++ lstrip s /\ forallb isspace lead = true.
Proof.
  induction s as [|c s (lead & Hs & Hlead)].
  - now exists [].
  - simpl. destruct (isspace c) eqn:Hc.
    + exists (c :: lead). simpl. rewrite Hc, Hlead. split; [now f_equal | reflexivity].
    + now exists [].
Qed.

Lemma lstrip_head (s : pystr) (c : N) (r : pystr) :
  lstrip s = c :: r -> isspace c = false.
Proof.
  induction s as [|d s IH]; simpl; [discriminate|].
  destruct (isspace d) eqn:Hd; [exact IH|].
  intros [= <- _]. exact Hd.
Qed.

Lemma forallb_rev (f : N -> bool) (l : pystr) :
  forallb f (rev l) = forallb f l.
Proof.
  induction l as [|c l IH]; [reflexivity|].
  simpl. rewrite forallb_app, IH. simpl. rewrite andb_true_r. apply andb_comm.
Qed.

Lemma rstrip_split (s : pystr) :
  exists trail, s = rstrip s ++ trail /\ forallb isspace trail = true.
Proof.
  unfold rstrip.
  destruct (lstrip_split (rev s)) as (lead & Hs & Hlead).
  exists (rev lead). split.
  - rewrite <- rev_app_distr, <- Hs. symmetry. apply rev_involutive.
  - now rewrite forallb_rev.
Qed.

Lemma rstrip_last (s r : pystr) (c : N) :
  rstrip s = r ++ [c] -> isspace c = false.
Proof.
  unfold rstrip. intros H.
  apply (f_equal (@rev N)) in H.
  rewrite rev_involutive, rev_app_distr in H. simpl in H.
  now apply lstrip_head in H.
Qed.

(** [strip] removes whitespace at both ends, and only there. *)
Lemma strip_split (s : pystr) :
  exists lead trail,
    s = lead ++ strip s ++ trail
    /\ forallb isspace lead = true
    /\ forallb isspace trail = true.
Proof.
  unfold strip.
  destruct (lstrip_split s) as (lead & Hs & Hlead).
  destruct (rstrip_split (lstrip s)) as (trail & Hr & Htrail).
  exists lead, trail. repeat split; try assumption.
  now rewrite <- Hr.
Qed.

Lemma strip_last (s r : pystr) (c : N) :
  strip s = r ++ [c] -> isspace c = false.
Proof. apply rstrip_last. Qed.

Lemma strip_head (s r : pystr) (c : N) :
  strip s = c :: r -> isspace c = false.
Proof.
  unfold strip. intros H.
  destruct (rstrip_split (lstrip s)) as (trail & Hr & _).
  rewrite H in Hr. simpl in Hr.
  now apply lstrip_head in Hr.
Qed.

Lemma lower_from_ascii (db : unicode_db) (s : pystr) (i : nat) (rest : pystr) :
  forallb is_ascii rest = true ->
  lower_from db s i rest = map ascii_lower rest.
Proof.
  revert i; induction rest as [|c rest IH]; intros i H; [reflexivity|].
  cbn [forallb] in H. apply andb_true_iff in H as [Hc Hrest].
  cbn [lower_from map]. rewrite Hc.
  cbn [app]. now rewrite IH.
Qed.

(** On a string of ASCII characters [lower] maps [A-Z] to [a-z] and needs no
    character database. *)
Lemma lower_ascii (db : unicode_db) (s : pystr) :
  forallb is_ascii s = true -> lower db s = map ascii_lower s.
Proof. apply lower_from_ascii. Qed.

Lemma isspace_ascii_lower (c : N) : isspace (ascii_lower c) = isspace c.
Proof.
  unfold ascii_lower.
  destruct ((65 <=? c) && (c <=? 90))%N eqn:Hc; [|reflexivity].
  apply andb_true_iff in Hc as [Hlo Hhi].
  apply N.leb_le in Hlo, Hhi.
  unfold isspace.
  repeat match goal with
         | |- context [(?a <=? ?b)%N] => destruct (N.leb_spec a b); try lia
         | |- context [(?a =? ?b)%N] => destruct (N.eqb_spec a b); try lia
         end; reflexivity.
Qed.

Lemma lstrip_map (f : N -> N) (s : pystr) :
  (forall c, isspace (f c) = isspace c) ->
  lstrip (map f s) = map f (lstrip s).
Proof.
  intros Hf. induction s as [|c s IH]; [reflexivity|].
  cbn [map lstrip]. rewrite Hf. now destruct (isspace c).
Qed.

Lemma strip_map (f : N -> N) (s : pystr) :
  (forall c, isspace (f c) = isspace c) ->
  strip (map f s) = map f (strip s).
Proof.
  intros Hf. unfold strip, rstrip.
  now rewrite (lstrip_map f s Hf), <- map_rev, (lstrip_map f _ Hf), map_rev.
Qed.

Lemma strip_ascii (s : pystr) :
  forallb is_ascii s = true -> forallb is_ascii (strip s) = true.
Proof.
  intros H. destruct (strip_split s) as (lead & trail & Hs & _ & _).
  rewrite Hs, !forallb_app in H.
  apply andb_true_iff in H as [_ H].
  now apply andb_true_iff in H as [H _].
Qed.

(** ** Traces *)

Lemma generation_calls_app (t u : list event) :
  generation_calls (t ++ u) = generation_calls t ++ generation_calls u.
Proof.
  induction t as [|e t IH]; [reflexivity|].
  destruct e; simpl; now rewrite IH.
Qed.

Lemma extraction_calls_app (t u : list event) :
  extraction_calls (t ++ u) = extraction_calls t ++ extraction_calls u.
Proof.
  induction t as [|e t IH]; [reflexivity|].
  destruct e; simpl; now rewrite IH.
Qed.

(** ** Responses *)

Lemma non_success_envelope (raw : pyval) :
  non_success raw <-> success_envelope raw = None.
Proof.
  split.
  - intros [v Hv | entries Hget | entries flag Hget Hflag].
    + destruct v; try reflexivity. now destruct (Hv entries).
    + simpl. now rewrite Hget.
    + simpl. now rewrite Hget, Hflag.
  - intros H. destruct raw; try (apply NotADict; discriminate).
    simpl in H.
    destruct (dict_get (py "success") entries) as [flag|] eqn:Hget.
    + destruct (truthy flag) eqn:Hflag; [discriminate|].
      now apply FalsySuccess with flag.
    + now apply NoSuccessKey.
Qed.

Lemma success_envelope_entries (raw : pyval) (entries : list (pystr * pyval)) :
  success_envelope raw = Some entries <->
  raw = PDict entries
  /\ exists flag, dict_get (py "success") entries = Some flag /\ truthy flag = true.
Proof.
  split.
  - destruct raw; try discriminate. simpl.
    destruct (dict_get (py "success") entries0) as [flag|] eqn:Hget; [|discriminate].
    destruct (truthy flag) eqn:Hflag; [|discriminate].
    intros [= ->]. split; [reflexivity|]. now exists flag.
  - intros (-> & flag & Hget & Hflag). simpl. now rewrite Hget, Hflag.
Qed.

(** ** What one call does *)

Section Calls.

Variable db : unicode_db.
Variable w : world.

(** Every run of [find_properties]: the extraction is requested first; the
    generator is reached when the extraction returns and the properties can
    be read from the response. *)
Lemma find_properties_exec (city : pystr) (max_price : pyfloat)
    (category ptype : pystr) :
  let request := property_request db city max_price category ptype in
  let asked :=
    [ EvPrint (py "Urls:") (PList (map PStr (property_urls db city ptype)));
      EvExtract request ] in
  exec (find_properties db city max_price category ptype) w =
  match firecrawl_extract w request with
  | Raise e => (Raise e, asked)
  | Ok raw =>
    let answered := asked ++ [EvPrint (py "Raw Property Response:") raw] in
    match processed_properties raw with
    | Raise e => (Raise e, answered)
    | Ok properties =>
      let instruction := analysis_instruction db properties category ptype max_price in
      (agent_run w instruction,
       answered ++ [EvPrint (py "Processed Properties:") properties; EvRun instruction])
    end
  end.
Proof.
  cbv zeta.
  unfold exec, find_properties.
  cbv beta iota zeta delta [bind print emit extract lift run ret].
  cbn [app].
  destruct (firecrawl_extract w _) as [raw|e]; [|reflexivity].
  destruct (processed_properties raw) as [properties|e]; [|reflexivity].
  now destruct (agent_run w _).
Qed.

(** Every run of [get_location_trends]. *)
Lemma get_location_trends_exec (city : pystr) :
  let request := trend_request db city in
  let asked :=
    [ EvPrint (py "Trend Url:") (PList (map PStr (trend_urls db city)));
      EvExtract request ] in
  exec (get_location_trends db city) w =
  match firecrawl_extract w request with
  | Raise e => (Raise e, asked)
  | Ok raw =>
    let answered := asked ++ [EvPrint (py "Trend raw resonse:") raw] in
    match success_envelope raw with
    | None => (Ok no_trends, answered)
    | Some entries =>
      match data_field entries (py "locations") with
      | Raise e => (Raise e, answered)
      | Ok locations =>
        let instruction := trend_instruction db city locations in
        (agent_run w instruction, answered ++ [EvRun instruction])
      end
    end
  end.
Proof.
  cbv zeta.
  unfold exec, get_location_trends.
  cbv beta iota zeta delta [bind print emit extract lift run ret].
  cbn [app].
  destruct (firecrawl_extract w _) as [raw|e]; [|reflexivity].
  destruct (success_envelope raw) as [entries|]; [|reflexivity].
  destruct (data_field entries _) as [locations|e]; [|reflexivity].
  now destruct (agent_run w _).
Qed.

End Calls.

(** ** The property list kept from a success envelope *)

Lemma processed_properties_success
    (entries data : list (pystr * pyval)) (flag : pyval) :
  dict_get (py "success") entries = Some flag ->
  truthy flag = true ->
  dict_get (py "data") entries = Some (PDict data) ->
  processed_properties (PDict entries)
  = Ok (match dict_get (py "properties") data with
        | Some found => found
        | None => PList []
        end).
Proof.
  intros Hflag Htrue Hdata.
  unfold processed_properties.
  replace (success_envelope (PDict entries)) with (Some entries).
  - unfold data_field, getitem. now rewrite Hdata.
  - symmetry. apply success_envelope_entries. split; [reflexivity|]. now exists flag.
Qed.

Lemma instruction_embeds_properties (db : unicode_db) (properties : pyval)
    (category ptype : pystr) (max_price : pyfloat) :
  Infix (py_str db properties)
        (analysis_instruction db properties category ptype max_price).
Proof.
  unfold analysis_instruction.
  apply Infix_later, Infix_here.
Qed.

(** C1. When the extraction response is a dict with a truthy [success] entry
    whose [data] is a dict holding a list under [properties],
    [find_properties] keeps exactly that list, whatever its length (so for
    0 to 10 records too): no record is dropped, merged, filtered or reordered.
    The one instruction sent to the generator is built from that same list,
    and contains it written out record by record, in order. *)
Theorem find_properties_keeps_extracted_list
    (db : unicode_db) (w : world) (city : pystr) (max_price : pyfloat)
    (category ptype : pystr)
    (entries data : list (pystr * pyval)) (flag : pyval) (items : list pyval) :
  firecrawl_extract w (property_request db city max_price category ptype)
    = Ok (PDict entries) ->
  dict_get (py "success") entries = Some flag ->
  truthy flag = true ->
  dict_get (py "data") entries = Some (PDict data) ->
  dict_get (py "properties") data = Some (PList items) ->
  processed_properties (PDict entries) = Ok (PList items)
  /\ generation_calls
       (snd (exec (find_properties db city max_price category ptype) w))
     = [analysis_instruction db (PList items) category ptype max_price]
  /\ Infix (py "[" ++ join (py ", ") (map (py_repr db) items) ++ py "]")
           (analysis_instruction db (PList items) category ptype max_price).
Proof.
  intros Hreply Hflag Htrue Hdata Hitems.
  assert (Hkept : processed_properties (PDict entries) = Ok (PList items)).
  { rewrite (processed_properties_success _ _ _ Hflag Htrue Hdata).
    now rewrite Hitems. }
  split; [exact Hkept|]. split.
  - rewrite find_properties_exec. cbv zeta.
    rewrite Hreply, Hkept.
    cbn [snd]. rewrite !generation_calls_app. reflexivity.
  - apply (instruction_embeds_properties db (PList items)).
Qed.

Lemma find_properties_keeps_extracted_list_witness :
  let w := constant_world (Ok two_properties_reply) (Ok a_narrative) in
  processed_properties two_properties_reply = Ok (PList [marina_gate; marina_gate])
  /\ generation_calls
       (snd (exec (find_properties caseless_db (py "Business Bay") ten_millions
                     (py "Residential") (py "Apartments")) w))
     = [analysis_instruction caseless_db (PList [marina_gate; marina_gate])
          (py "Residential") (py "Apartments") ten_millions]
  /\ Infix (py "[" ++ join (py ", ")
                        (map (py_repr caseless_db) [marina_gate; marina_gate])
            ++ py "]")
           (analysis_instruction caseless_db (PList [marina_gate; marina_gate])
              (py "Residential") (py "Apartments") ten_millions).
Proof.
  apply (find_properties_keeps_extracted_list caseless_db
           (constant_world (Ok two_properties_reply) (Ok a_narrative))
           (py "Business Bay") ten_millions (py "Residential") (py "Apartments")
           _ [(py "properties", PList [marina_gate; marina_gate])] (PBool true));
    reflexivity.
Defined.

(** ** Responses that are not a success envelope *)

Lemma processed_properties_non_success (raw : pyval) :
  non_success raw -> processed_properties raw = Ok (PList []).
Proof.
  intros H. apply non_success_envelope in H.
  unfold processed_properties. now rewrite H.
Qed.

(** C2, as amended.  For every extraction response that is not a success
    envelope (not a dict, a dict without a [success] key, or a dict whose
    [success] entry is falsy, with or without [data]), the properties kept
    are the empty list and nothing is raised: [find_properties] goes on to
    the generator with the empty list.  (A dict with a truthy [success] is
    not covered: its [data] entry is read with a subscript.) *)
Theorem non_success_response_gives_no_properties
    (db : unicode_db) (city : pystr) (max_price : pyfloat)
    (category ptype : pystr) (raw : pyval) :
  non_success raw ->
  processed_properties raw = Ok (PList [])
  /\ forall w,
       firecrawl_extract w (property_request db city max_price category ptype)
         = Ok raw ->
       fst (exec (find_properties db city max_price category ptype) w)
         = agent_run w (analysis_instruction db (PList []) category ptype max_price)
       /\ generation_calls
            (snd (exec (find_properties db city max_price category ptype) w))
          = [analysis_instruction db (PList []) category ptype max_price].
Proof.
  intros Hshape.
  pose proof (processed_properties_non_success raw Hshape) as Hnone.
  split; [exact Hnone|].
  intros w Hreply.
  rewrite find_properties_exec. cbv zeta.
  rewrite Hreply, Hnone. cbn [fst snd].
  split; [reflexivity|].
  rewrite !generation_calls_app. reflexivity.
Qed.

Lemma non_success_response_gives_no_properties_witness :
  processed_properties failure_reply = Ok (PList [])
  /\ generation_calls
       (snd (exec (find_properties caseless_db (py "Business Bay") ten_millions
                     (py "Residential") (py "Apartments"))
                  (constant_world (Ok failure_reply) (Ok a_narrative))))
     = [analysis_instruction caseless_db (PList []) (py "Residential")
          (py "Apartments") ten_millions].
Proof.
  assert (Hshape : non_success failure_reply)
    by (apply FalsySuccess with (PBool false); reflexivity).
  destruct (non_success_response_gives_no_properties caseless_db
              (py "Business Bay") ten_millions (py "Residential")
              (py "Apartments") failure_reply Hshape)
    as [Hnone Hrun].
  split; [exact Hnone|].
  exact (proj2 (Hrun (constant_world (Ok failure_reply) (Ok a_narrative)) eq_refl)).
Defined.

(** C2 as stated fails: a dict with a truthy [success] and no [data] key
    makes the lookup of [data] raise [KeyError], which [find_properties]
    does not catch, so that no instruction reaches the generator. *)
Lemma truthy_success_without_data_raises :
  processed_properties success_without_data = Raise (KeyError (py "data"))
  /\ fst (exec (find_properties caseless_db (py "Business Bay") ten_millions
                  (py "Residential") (py "Apartments"))
               (constant_world (Ok success_without_data) (Ok a_narrative)))
     = Raise (KeyError (py "data"))
  /\ generation_calls
       (snd (exec (find_properties caseless_db (py "Business Bay") ten_millions
                     (py "Residential") (py "Apartments"))
                  (constant_world (Ok success_without_data) (Ok a_narrative))))
     = [].
Proof.
  split; [reflexivity|].
  rewrite find_properties_exec. cbv zeta.
  split; reflexivity.
Qed.

(** ** The trend pipeline on failed and on empty extractions *)

(** C3, as amended.  When the trend extraction response is not a success
    envelope, [get_location_trends] returns exactly the placeholder
    [No price trends data available] and sends nothing to the generator. *)
Theorem failed_trend_extraction_gives_placeholder
    (db : unicode_db) (w : world) (city : pystr) (raw : pyval) :
  firecrawl_extract w (trend_request db city) = Ok raw ->
  non_success raw ->
  fst (exec (get_location_trends db city) w)
    = Ok (py "No price trends data available")
  /\ generation_calls (snd (exec (get_location_trends db city) w)) = [].
Proof.
  intros Hreply Hshape.
  apply non_success_envelope in Hshape.
  rewrite get_location_trends_exec. cbv zeta.
  rewrite Hreply, Hshape. cbn [fst snd].
  split; [reflexivity|].
  rewrite !generation_calls_app. reflexivity.
Qed.

Lemma failed_trend_extraction_gives_placeholder_witness :
  fst (exec (get_location_trends caseless_db (py "Business Bay"))
            (constant_world (Ok failure_reply) (Ok a_narrative)))
    = Ok (py "No price trends data available")
  /\ generation_calls
       (snd (exec (get_location_trends caseless_db (py "Business Bay"))
                  (constant_world (Ok failure_reply) (Ok a_narrative))))
     = [].
Proof.
  apply (failed_trend_extraction_gives_placeholder caseless_db
           (constant_world (Ok failure_reply) (Ok a_narrative))
           (py "Business Bay") failure_reply).
  - reflexivity.
  - apply FalsySuccess with (PBool false); reflexivity.
Defined.

(** C3 as stated fails on an empty extraction: a success envelope with no
    locality does not short-circuit.  The generator is called, with the
    empty list in its instruction, and its text is returned, not the
    placeholder. *)
Lemma empty_trend_extraction_calls_generator :
  fst (exec (get_location_trends caseless_db (py "Business Bay"))
            (constant_world (Ok no_locations_reply) (Ok a_narrative)))
    = Ok a_narrative
  /\ generation_calls
       (snd (exec (get_location_trends caseless_db (py "Business Bay"))
                  (constant_world (Ok no_locations_reply) (Ok a_narrative))))
     = [trend_instruction caseless_db (py "Business Bay") (PList [])].
Proof.
  rewrite get_location_trends_exec. cbv zeta.
  split; reflexivity.
Qed.

(** ** One generator call per analysed collection *)

Lemma Infix_across_end (tail x left rest : pystr) :
  endswith left tail = true ->
  Infix (tail ++ x) (left ++ x ++ rest).
Proof.
  intros Htail.
  destruct (endswith_split _ _ Htail) as [cut ->].
  exists cut, rest. now rewrite <- !app_assoc.
Qed.

(** C6, as amended.  Whenever the extraction call of [find_properties]
    returns a response from which the properties can be read, the call sends
    exactly one instruction to the generator and its outcome is the
    generator's: the content when the generator returns.  This holds for the
    empty collection too, whose instruction reads [[]] after the line
    [Properties Found in json format:]. *)
Theorem find_properties_asks_generator_once
    (db : unicode_db) (w : world) (city : pystr) (max_price : pyfloat)
    (category ptype : pystr) (raw properties : pyval) :
  firecrawl_extract w (property_request db city max_price category ptype)
    = Ok raw ->
  processed_properties raw = Ok properties ->
  generation_calls
    (snd (exec (find_properties db city max_price category ptype) w))
  = [analysis_instruction db properties category ptype max_price]
  /\ fst (exec (find_properties db city max_price category ptype) w)
     = agent_run w (analysis_instruction db properties category ptype max_price)
  /\ Infix (py "Properties Found in json format:
            " ++ py "[]")
           (analysis_instruction db (PList []) category ptype max_price).
Proof.
  intros Hreply Hkept.
  rewrite find_properties_exec. cbv zeta.
  rewrite Hreply, Hkept. cbn [fst snd].
  rewrite !generation_calls_app.
  repeat split.
  unfold analysis_instruction.
  change (py_str db (PList [])) with (py "[]").
  apply Infix_across_end. reflexivity.
Qed.

Lemma find_properties_asks_generator_once_witness :
  generation_calls
    (snd (exec (find_properties caseless_db (py "Business Bay") ten_millions
                  (py "Residential") (py "Apartments"))
               (constant_world (Ok failure_reply) (Ok a_narrative))))
  = [analysis_instruction caseless_db (PList []) (py "Residential")
       (py "Apartments") ten_millions]
  /\ fst (exec (find_properties caseless_db (py "Business Bay") ten_millions
                  (py "Residential") (py "Apartments"))
               (constant_world (Ok failure_reply) (Ok a_narrative)))
     = Ok a_narrative.
Proof.
  destruct (find_properties_asks_generator_once caseless_db
              (constant_world (Ok failure_reply) (Ok a_narrative))
              (py "Business Bay") ten_millions (py "Residential")
              (py "Apartments") failure_reply (PList [])
              eq_refl eq_refl) as (Hcalls & Hresult & _).
  split; [exact Hcalls | exact Hresult].
Defined.

(** C6 as stated fails when the extraction service raises: the exception
    leaves [find_properties] before any instruction is sent. *)
Lemma failed_extraction_reaches_no_generator :
  fst (exec (find_properties caseless_db (py "Business Bay") ten_millions
               (py "Residential") (py "Apartments"))
            (constant_world (Raise (ServiceError (py "Request Timeout")))
                            (Ok a_narrative)))
    = Raise (ServiceError (py "Request Timeout"))
  /\ generation_calls
       (snd (exec (find_properties caseless_db (py "Business Bay") ten_millions
                     (py "Residential") (py "Apartments"))
                  (constant_world (Raise (ServiceError (py "Request Timeout")))
                                  (Ok a_narrative))))
     = [].
Proof.
  rewrite find_properties_exec. cbv zeta.
  split; reflexivity.
Qed.

(** ** URL segments *)

Lemma space_to_hyphen_no_space (s : pystr) :
  existsb (N.eqb 32) (map space_to_hyphen s) = false.
Proof.
  induction s as [|c s IH]; [reflexivity|].
  cbn [map existsb]. rewrite IH, orb_false_r.
  unfold space_to_hyphen.
  destruct (c =? 32)%N eqn:Hc; [reflexivity|].
  now rewrite N.eqb_sym.
Qed.

(** C4, as amended.  For every input string the segment that enters the URL
    is obtained by removing the whitespace at both ends (and only there),
    lower-casing, and replacing every space character U+0020 by one hyphen;
    every other character is kept, so that the segment has no space, a run
    of spaces gives as many hyphens, and a tab stays a tab.  Both query
    builders use this segment, and [Business Bay] and [Apartments] give
    [business-bay] and [apartments]. *)
Theorem formatted_replaces_each_space (db : unicode_db) (s : pystr) :
  (exists lead trail,
      s = lead ++ strip s ++ trail
      /\ forallb isspace lead = true
      /\ forallb isspace trail = true)
  /\ (forall c r, strip s = c :: r -> isspace c = false)
  /\ (forall r c, strip s = r ++ [c] -> isspace c = false)
  /\ formatted db s = map space_to_hyphen (lower db (strip s))
  /\ (forallb is_ascii s = true ->
      formatted db s = map (fun c => space_to_hyphen (ascii_lower c)) (strip s))
  /\ existsb (N.eqb 32) (formatted db s) = false
  /\ property_urls db (py "Business Bay") (py "Apartments")
     = [py "https://www.propertyfinder.ae/en/buy/dubai/apartments-for-sale-business-bay.html"]
  /\ trend_urls db (py "Business Bay")
     = [py "https://www.propertyfinder.ae/en/area-insights/dubai/business-bay"]
  /\ formatted db (py "Business Bay") = py "business-bay"
  /\ formatted db (py "Apartments") = py "apartments".
Proof.
  split; [apply strip_split|].
  split; [intros c r; apply strip_head|].
  split; [intros r c; apply strip_last|].
  split; [apply formatted_map|].
  split.
  { intros Hascii.
    rewrite formatted_map, (lower_ascii db _ (strip_ascii s Hascii)).
    apply map_map. }
  split; [rewrite formatted_map; apply space_to_hyphen_no_space|].
  repeat split; vm_compute; reflexivity.
Qed.

(** C4 as stated fails on whitespace other than a single space.  Two spaces
    give two hyphens where a run of whitespace should give one, and a tab is
    left in the segment where either reading of the sentence puts a
    hyphen. *)
Lemma formatted_keeps_runs_and_tabs :
  formatted caseless_db (py "Business  Bay") = py "business--bay"
  /\ spec_segment_runs caseless_db (py "Business  Bay") = py "business-bay"
  /\ formatted caseless_db (py "Business" ++ [9%N] ++ py "Bay")
     = py "business" ++ [9%N] ++ py "bay"
  /\ spec_segment_runs caseless_db (py "Business" ++ [9%N] ++ py "Bay")
     = py "business-bay"
  /\ spec_segment_each caseless_db (py "Business" ++ [9%N] ++ py "Bay")
     = py "business-bay".
Proof. repeat split; vm_compute; reflexivity. Qed.

(** ** The extraction requests *)

Lemma find_properties_extraction (db : unicode_db) (w : world) (city : pystr)
    (max_price : pyfloat) (category ptype : pystr) :
  extraction_calls
    (snd (exec (find_properties db city max_price category ptype) w))
  = [property_request db city max_price category ptype].
Proof.
  rewrite find_properties_exec. cbv zeta.
  destruct (firecrawl_extract w _) as [raw|e]; [|reflexivity].
  destruct (processed_properties raw) as [properties|e];
    cbn [snd]; rewrite ?extraction_calls_app; reflexivity.
Qed.

Lemma get_location_trends_extraction (db : unicode_db) (w : world) (city : pystr) :
  extraction_calls (snd (exec (get_location_trends db city) w))
  = [trend_request db city].
Proof.
  rewrite get_location_trends_exec. cbv zeta.
  destruct (firecrawl_extract w _) as [raw|e]; [|reflexivity].
  destruct (success_envelope raw) as [entries|]; [|reflexivity].
  destruct (data_field entries _) as [locations|e];
    cbn [snd]; rewrite ?extraction_calls_app; reflexivity.
Qed.

(** C7. Every call of [find_properties] sends one extraction request, whose
    URL list holds exactly one URL, the property-search URL built from the
    two segments; every call of [get_location_trends] sends one extraction
    request with exactly one URL, the area-insights URL of the city. *)
Theorem one_search_url_per_call (db : unicode_db) (w : world) (city : pystr)
    (max_price : pyfloat) (category ptype : pystr) :
  map req_urls
    (extraction_calls
       (snd (exec (find_properties db city max_price category ptype) w)))
  = [[ py "https://www.propertyfinder.ae/en/buy/dubai/" ++ formatted db ptype
       ++ py "-for-sale-" ++ formatted db city ++ py ".html" ]]
  /\ map req_urls
       (extraction_calls (snd (exec (get_location_trends db city) w)))
     = [[ py "https://www.propertyfinder.ae/en/area-insights/dubai/"
          ++ formatted db city ]].
Proof.
  rewrite find_properties_extraction, get_location_trends_extraction.
  unfold property_request, property_urls, trend_request, trend_urls.
  cbn [map req_urls].
  split; reflexivity.
Qed.

(** C9. The prompt that [get_location_trends] sends to the extraction
    service does not depend on the city: for any two cities, in any two
    worlds, the prompts (and schemas) sent are the same fixed text, and the
    request differs only in its URL, which ends with the city's segment. *)
Theorem trend_prompt_ignores_city (db : unicode_db) (w1 w2 : world)
    (city1 city2 : pystr) :
  map req_prompt (extraction_calls (snd (exec (get_location_trends db city1) w1)))
  = map req_prompt (extraction_calls (snd (exec (get_location_trends db city2) w2)))
  /\ map req_schema (extraction_calls (snd (exec (get_location_trends db city1) w1)))
     = map req_schema (extraction_calls (snd (exec (get_location_trends db city2) w2)))
  /\ extraction_calls (snd (exec (get_location_trends db city1) w1))
     = [ {| req_urls := [ py "https://www.propertyfinder.ae/en/area-insights/dubai/"
                          ++ formatted db city1 ];
            req_prompt := trend_prompt;
            req_schema := LocationsResponse |} ].
Proof.
  rewrite !get_location_trends_extraction.
  unfold trend_request, trend_urls.
  cbn [map req_prompt req_schema].
  split; [reflexivity|]. split; reflexivity.
Qed.

(** ** What the prompts say *)

Lemma Infix_across_last (tail x head left right : pystr) :
  endswith left tail = true ->
  startswith right head = true ->
  Infix (tail ++ x ++ head) (left ++ x ++ right).
Proof.
  intros Htail Hhead.
  rewrite <- (app_nil_r right).
  now apply Infix_across.
Qed.

Ltac within_piece := apply contains_Infix; vm_compute; reflexivity.

Ltac across_pieces := apply Infix_across; vm_compute; reflexivity.

(** C5. The prompt that [find_properties] sends to the extraction service
    states, as explicit constraints, at least 3 and at most 10 records, the
    property category, the property type, the city and the maximum price,
    and asks to mix the list from all URLs.  The prompt that
    [get_location_trends] sends asks for at least 5-10 localities and for
    both premium and affordable areas, and names no maximum. *)
Theorem prompts_state_their_constraints (db : unicode_db) (w : world)
    (city : pystr) (max_price : pyfloat) (category ptype : pystr) :
  let sent := property_prompt category ptype city max_price in
  map req_prompt
    (extraction_calls
       (snd (exec (find_properties db city max_price category ptype) w)))
  = [sent]
  /\ Infix (py "Return data for at least 3 different properties. MAXIMUM 10.") sent
  /\ Infix (py "Extract ONLY 10 OR LESS different " ++ category ++ py " ") sent
  /\ Infix (py "- Property Category: " ++ category ++ py " properties only") sent
  /\ Infix (py "- Property Type: " ++ ptype ++ py " only") sent
  /\ Infix (py "- Location: " ++ city ++ py "
") sent
  /\ Infix (py " that cost less than " ++ float_repr max_price ++ py " millions.") sent
  /\ Infix (py "- Maximum Price: " ++ float_repr max_price ++ py " Millions") sent
  /\ Infix (py "must mix the property list from all urls.") sent
  /\ map req_prompt
       (extraction_calls (snd (exec (get_location_trends db city) w)))
     = [trend_prompt]
  /\ Infix (py "- Return data for at least 5-10 different localities") trend_prompt
  /\ Infix (py "- Include both premium and affordable areas") trend_prompt
  /\ contains (map ascii_lower trend_prompt) (py "max") = false
  /\ contains (map ascii_lower trend_prompt) (py "at most") = false
  /\ contains (map ascii_lower trend_prompt) (py "or less") = false
  /\ contains (map ascii_lower trend_prompt) (py "up to") = false
  /\ contains (map ascii_lower trend_prompt) (py "no more than") = false.
Proof.
  cbv zeta.
  rewrite find_properties_extraction, get_location_trends_extraction.
  unfold property_request, trend_request. cbn [map req_prompt].
  split; [reflexivity|].
  unfold property_prompt.
  split; [do 16 apply Infix_later; within_piece|].
  split; [across_pieces|].
  split; [do 8 apply Infix_later; across_pieces|].
  split; [do 10 apply Infix_later; across_pieces|].
  split; [do 12 apply Infix_later; across_pieces|].
  split; [do 6 apply Infix_later; across_pieces|].
  split; [do 14 apply Infix_later; apply Infix_across_last; vm_compute; reflexivity|].
  split; [do 16 apply Infix_later; within_piece|].
  split; [reflexivity|].
  split; [within_piece|].
  split; [within_piece|].
  repeat split; vm_compute; reflexivity.
Qed.

(** ** The search branch of [main] *)

(** C8. When the search is started with the empty string as city, [main]
    shows the error [Please enter a area name!] and does nothing else:
    no extraction request and no generator instruction is sent, so neither
    [find_properties] nor [get_location_trends], which both start by
    requesting an extraction, has been called. *)
Theorem empty_city_is_rejected (db : unicode_db) (w : world)
    (category : pystr) (max_price : pyfloat) (ptype : pystr) :
  let form :=
    {| form_city := [];
       form_property_category := category;
       form_max_price := max_price;
       form_property_type := ptype;
       start_search := true |} in
  exec (main db form) w
  = (Ok tt, [EvSt StError (py "⚠️ Please enter a area name!")])
  /\ extraction_calls (snd (exec (main db form) w)) = []
  /\ generation_calls (snd (exec (main db form) w)) = []
  /\ reported_errors (snd (exec (main db form) w))
     = [py "⚠️ Please enter a area name!"].
Proof.
  cbv zeta.
  assert (Hrun : exec (main db
                   {| form_city := [];
                      form_property_category := category;
                      form_max_price := max_price;
                      form_property_type := ptype;
                      start_search := true |}) w
                 = (Ok tt, [EvSt StError (py "⚠️ Please enter a area name!")])).
  { unfold exec, main. cbn [start_search form_city truthy List.length Nat.eqb negb].
    reflexivity. }
  rewrite Hrun. cbn [snd extraction_calls generation_calls reported_errors].
  repeat split.
Qed.

(** A call continues the trace it is given. *)
Lemma find_properties_from (db : unicode_db) (w : world) (t : list event)
    (city : pystr) (max_price : pyfloat) (category ptype : pystr) :
  find_properties db city max_price category ptype w t
  = (fst (exec (find_properties db city max_price category ptype) w),
     t ++ snd (exec (find_properties db city max_price category ptype) w)).
Proof.
  rewrite find_properties_exec. cbv zeta.
  unfold find_properties.
  cbv beta iota zeta delta [bind print emit extract lift run ret].
  destruct (firecrawl_extract w _) as [raw|e];
    [|cbn [fst snd]; now rewrite <- !app_assoc].
  destruct (processed_properties raw) as [properties|e];
    [|cbn [fst snd]; now rewrite <- !app_assoc].
  destruct (agent_run w _); cbn [fst snd]; now rewrite <- !app_assoc.
Qed.

Lemma get_location_trends_from (db : unicode_db) (w : world) (t : list event)
    (city : pystr) :
  get_location_trends db city w t
  = (fst (exec (get_location_trends db city) w),
     t ++ snd (exec (get_location_trends db city) w)).
Proof.
  rewrite get_location_trends_exec. cbv zeta.
  unfold get_location_trends.
  cbv beta iota zeta delta [bind print emit extract lift run ret].
  destruct (firecrawl_extract w _) as [raw|e];
    [|cbn [fst snd]; now rewrite <- !app_assoc].
  destruct (success_envelope raw) as [entries|];
    [|cbn [fst snd]; now rewrite <- !app_assoc].
  destruct (data_field entries _) as [locations|e];
    [|cbn [fst snd]; now rewrite <- !app_assoc].
  destruct (agent_run w _); cbn [fst snd]; now rewrite <- !app_assoc.
Qed.

(** X1. With a city that is not the empty string (a city of spaces only
    included) the same branch does start the search: the first extraction
    request is the one of [find_properties] for that city. *)
Theorem main_searches_named_city (db : unicode_db) (w : world) (form : search_form) :
  start_search form = true ->
  form_city form <> [] ->
  exists later,
    extraction_calls (snd (exec (main db form) w))
    = property_request db (form_city form) (form_max_price form)
        (form_property_category form) (form_property_type form) :: later.
Proof.
  intros Hstart Hcity.
  unfold exec, main. rewrite Hstart.
  destruct (form_city form) as [|c city] eqn:Hc; [contradiction|].
  cbn [truthy List.length Nat.eqb negb].
  unfold try_except.
  cbv beta iota zeta delta [bind st emit ret].
  rewrite find_properties_from. cbv beta iota.
  destruct (fst (exec (find_properties db (c :: city) (form_max_price form)
                         (form_property_category form) (form_property_type form)) w))
    as [results|e].
  - rewrite get_location_trends_from. cbv beta iota.
    destruct (fst (exec (get_location_trends db (c :: city)) w)) as [trends|e];
      eexists; cbn [snd];
      rewrite !extraction_calls_app, find_properties_extraction;
      cbn [extraction_calls app]; reflexivity.
  - eexists. cbn [snd].
    rewrite !extraction_calls_app, find_properties_extraction.
    cbn [extraction_calls app]. reflexivity.
Qed.

Lemma main_searches_named_city_witness :
  exists later,
    extraction_calls
      (snd (exec (main caseless_db
                    {| form_city := py "   ";
                       form_property_category := py "Residential";
                       form_max_price := ten_millions;
                       form_property_type := py "Apartments";
                       start_search := true |})
                 (constant_world (Ok failure_reply) (Ok a_narrative))))
    = property_request caseless_db (py "   ") ten_millions
        (py "Residential") (py "Apartments") :: later.
Proof.
  apply (main_searches_named_city caseless_db
           (constant_world (Ok failure_reply) (Ok a_narrative))
           {| form_city := py "   ";
              form_property_category := py "Residential";
              form_max_price := ten_millions;
              form_property_type := py "Apartments";
              start_search := true |}).
  - reflexivity.
  - discriminate.
Defined.

(** ** The test that selects the success branch *)

(** C10. In both pipelines the success branch is taken exactly when the
    extraction response is a dict whose [success] entry is truthy.  A truthy
    value that is not a boolean, such as a non-empty string, counts as
    success; a response that is not a dict, a typed response object
    included, counts as failure.  In [find_properties] the branch decides
    whether the properties are read from [data] or are the empty list; in
    [get_location_trends] it decides between the generator and the
    placeholder. *)
Theorem success_branch_iff_truthy_success_in_dict
    (db : unicode_db) (city : pystr) (raw : pyval) (content : outcome pystr) :
  ((exists entries, success_envelope raw = Some entries)
   <-> exists entries flag,
         raw = PDict entries
         /\ dict_get (py "success") entries = Some flag
         /\ truthy flag = true)
  /\ (forall entries,
         success_envelope raw = Some entries ->
         processed_properties raw = data_field entries (py "properties"))
  /\ (success_envelope raw = None -> processed_properties raw = Ok (PList []))
  /\ (success_envelope raw = None
      <-> fst (exec (get_location_trends db city) (constant_world (Ok raw) content))
            = Ok no_trends
          /\ generation_calls
               (snd (exec (get_location_trends db city)
                          (constant_world (Ok raw) content)))
             = [])
  /\ success_envelope (PDict [(py "success", PStr (py "yes"))])
     = Some [(py "success", PStr (py "yes"))]
  /\ (forall o, success_envelope (PObj o) = None)
  /\ success_envelope typed_response = None.
Proof.
  split.
  { split.
    - intros [entries H]. apply success_envelope_entries in H as (-> & flag & Hget & Hflag).
      now exists entries, flag.
    - intros (entries & flag & -> & Hget & Hflag). exists entries.
      apply success_envelope_entries. split; [reflexivity|]. now exists flag. }
  split.
  { intros entries H. unfold processed_properties. now rewrite H. }
  split.
  { intros H. unfold processed_properties. now rewrite H. }
  split.
  { rewrite get_location_trends_exec. cbv zeta.
    cbn [constant_world firecrawl_extract agent_run].
    destruct (success_envelope raw) as [entries|].
    - split; [discriminate|].
      destruct (data_field entries (py "locations")) as [locations|e];
        cbn [fst snd]; intros [Hresult Hcalls]; [|discriminate].
      rewrite !generation_calls_app in Hcalls.
      cbn [generation_calls app] in Hcalls. discriminate.
    - split; [|reflexivity]. intros _. cbn [fst snd].
      rewrite !generation_calls_app. split; reflexivity. }
  repeat split.
Qed.

(** ** Where the code and the specification's wording agree *)

Lemma ascii_lower_space (c : N) : isspace c = true -> ascii_lower c = c.
Proof.
  unfold ascii_lower.
  destruct ((65 <=? c) && (c <=? 90))%N eqn:Hc; [|reflexivity].
  apply andb_true_iff in Hc as [Hlo Hhi].
  apply N.leb_le in Hlo, Hhi.
  unfold isspace.
  repeat match goal with
         | |- context [(?a <=? ?b)%N] => destruct (N.leb_spec a b); try lia
         | |- context [(?a =? ?b)%N] => destruct (N.eqb_spec a b); try lia
         end; discriminate.
Qed.

Lemma single_spaced_lower (after_space : bool) (t : pystr) :
  single_spaced after_space (map ascii_lower t) = single_spaced after_space t.
Proof.
  revert after_space; induction t as [|c t IH]; intros after_space; [reflexivity|].
  cbn [map single_spaced]. rewrite isspace_ascii_lower, !IH.
  destruct (isspace c) eqn:Hc; [|reflexivity].
  now rewrite (ascii_lower_space c Hc).
Qed.

Lemma hyphenate_single_spaced (after_space : bool) (t : pystr) :
  single_spaced after_space t = true ->
  hyphenate_runs after_space t = map space_to_hyphen t.
Proof.
  revert after_space; induction t as [|c t IH]; intros after_space H; [reflexivity|].
  cbn [single_spaced] in H. cbn [hyphenate_runs map]. unfold space_to_hyphen at 1.
  destruct (isspace c) eqn:Hc.
  - apply andb_true_iff in H as [H Hrest].
    apply andb_true_iff in H as [Hspace Hfirst].
    rewrite Hspace. destruct after_space; [discriminate|].
    now rewrite (IH true Hrest).
  - destruct (N.eqb_spec c 32) as [->|_]; [discriminate|].
    now rewrite (IH false H).
Qed.

Lemma each_single_spaced (after_space : bool) (t : pystr) :
  single_spaced after_space t = true ->
  map (fun c => if isspace c then 45%N else c) t = map space_to_hyphen t.
Proof.
  revert after_space; induction t as [|c t IH]; intros after_space H; [reflexivity|].
  cbn [single_spaced] in H. cbn [map]. unfold space_to_hyphen at 1.
  destruct (isspace c) eqn:Hc.
  - apply andb_true_iff in H as [H Hrest].
    apply andb_true_iff in H as [Hspace _].
    rewrite Hspace. now rewrite (IH true Hrest).
  - destruct (N.eqb_spec c 32) as [->|_]; [discriminate|].
    now rewrite (IH false H).
Qed.

(** X2. On an ASCII string whose words are separated by single spaces, the
    segment the code builds is the one the specification describes, under
    either reading of its sentence. *)
Theorem formatted_agrees_on_single_spaced (db : unicode_db) (s : pystr) :
  forallb is_ascii s = true ->
  single_spaced false (strip s) = true ->
  spec_segment_runs db s = formatted db s
  /\ spec_segment_each db s = formatted db s.
Proof.
  intros Hascii Hspaced.
  assert (Hlow : single_spaced false (map ascii_lower (strip s)) = true)
    by now rewrite single_spaced_lower.
  unfold spec_segment_runs, spec_segment_each.
  rewrite formatted_map, (lower_ascii db _ (strip_ascii s Hascii)).
  rewrite (lower_ascii db s Hascii), (strip_map ascii_lower s isspace_ascii_lower).
  split.
  - now apply hyphenate_single_spaced.
  - now apply each_single_spaced with false.
Qed.

Lemma formatted_agrees_on_single_spaced_witness :
  spec_segment_runs caseless_db (py " Business Bay ")
    = formatted caseless_db (py " Business Bay ")
  /\ spec_segment_each caseless_db (py " Business Bay ")
     = formatted caseless_db (py " Business Bay ").
Proof.
  apply (formatted_agrees_on_single_spaced caseless_db (py " Business Bay "));
    reflexivity.
Defined.

(** ** Every run of [main] *)

Lemma shown_app (kind : widget) (t u : list event) :
  shown kind (t ++ u) = shown kind t ++ shown kind u.
Proof.
  induction t as [|e t IH]; [reflexivity|].
  destruct e; cbn [app shown]; try exact IH.
  destruct (widget_eqb w kind); cbn [app]; now rewrite IH.
Qed.

Lemma reported_errors_app (t u : list event) :
  reported_errors (t ++ u) = reported_errors t ++ reported_errors u.
Proof.
  induction t as [|e t IH]; [reflexivity|].
  destruct e; cbn [app reported_errors]; try exact IH.
  destruct w; cbn [app]; now rewrite IH.
Qed.

Section MainRuns.

Variable db : unicode_db.
Variable w : world.

Lemma find_properties_widgets (kind : widget) (city : pystr)
    (max_price : pyfloat) (category ptype : pystr) :
  shown kind (snd (exec (find_properties db city max_price category ptype) w)) = []
  /\ reported_errors
       (snd (exec (find_properties db city max_price category ptype) w)) = [].
Proof.
  rewrite find_properties_exec. cbv zeta.
  destruct (firecrawl_extract w _) as [raw|e]; [|split; reflexivity].
  destruct (processed_properties raw) as [properties|e]; cbn [snd];
    rewrite ?shown_app, ?reported_errors_app; split; reflexivity.
Qed.

Lemma get_location_trends_widgets (kind : widget) (city : pystr) :
  shown kind (snd (exec (get_location_trends db city) w)) = []
  /\ reported_errors (snd (exec (get_location_trends db city) w)) = [].
Proof.
  rewrite get_location_trends_exec. cbv zeta.
  destruct (firecrawl_extract w _) as [raw|e]; [|split; reflexivity].
  destruct (success_envelope raw) as [entries|]; [|split; reflexivity].
  destruct (data_field entries _) as [locations|e]; cbn [snd];
    rewrite ?shown_app, ?reported_errors_app; split; reflexivity.
Qed.



(** A started search with a city: the property pipeline runs first; the
    trend pipeline runs only when the first returned; an exception of either
    ends the search with one error message. *)
Lemma main_exec (form : search_form) :
  start_search form = true ->
  form_city form <> [] ->
  let P := exec (find_properties db (form_city form) (form_max_price form)
                   (form_property_category form) (form_property_type form)) w in
  let T := exec (get_location_trends db (form_city form)) w in
  exec (main db form) w =
  (Ok tt,
   EvSt StSpinner (py "🔍 Searching for properties...") :: snd P ++
   match fst P with
   | Raise e => [EvSt StError (error_report db e)]
   | Ok results =>
     [ EvSt StSuccess (py "✅ Property search completed!");
       EvSt StSubheader (py "🏘️ Property Recommendations");
       EvSt StMarkdown results;
       EvSt StDivider [];
       EvSt StSpinner (py "📊 Analyzing location trends...") ]
     ++ snd T ++
     match fst T with
     | Raise e => [EvSt StError (error_report db e)]
     | Ok trends =>
       [ EvSt StSuccess (py "✅ Location analysis completed!");
         EvSt StExpander (py "📈 Location Trends Analysis of the city");
         EvSt StMarkdown trends ]
     end
   end).
Proof.
  intros Hstart Hcity. cbv zeta.
  unfold exec at 1. unfold main. rewrite Hstart.
  destruct (form_city form) as [|c city] eqn:Hc; [contradiction|].
  cbn [truthy List.length Nat.eqb negb].
  unfold try_except, error_report.
  cbv beta iota zeta delta [bind st emit ret].
  rewrite find_properties_from. cbv beta iota.
  destruct (fst (exec (find_properties db (c :: city) (form_max_price form)
                         (form_property_category form) (form_property_type form)) w))
    as [results|e].
  - rewrite get_location_trends_from. cbv beta iota.
    destruct (fst (exec (get_location_trends db (c :: city)) w)) as [trends|e];
      rewrite <- !app_assoc; reflexivity.
  - rewrite <- !app_assoc. reflexivity.
Qed.

End MainRuns.

(** Discharge the first hypothesis of [H] with a tactic. *)
Ltac feed H tac :=
  match type of H with
  | ?A -> _ =>
    let HA := fresh in
    assert (HA : A) by tac; specialize (H HA); clear HA
  end.

Ltac project_main_trace :=
  cbn [snd];
  repeat (rewrite ?extraction_calls_app, ?generation_calls_app, ?shown_app,
            ?reported_errors_app;
          cbn [extraction_calls generation_calls shown reported_errors
               widget_eqb app]);
  rewrite ?find_properties_extraction, ?get_location_trends_extraction,
    ?(proj1 (find_properties_widgets _ _ _ _ _ _ _)),
    ?(proj2 (find_properties_widgets _ _ StError _ _ _ _)),
    ?(proj1 (get_location_trends_widgets _ _ _ _)),
    ?(proj2 (get_location_trends_widgets _ _ StError _));
  cbn [app].


(** X4. When the property search raises, [main] reports that one exception
    and stops: the trend extraction is never requested, no success message
    and no result text is shown. *)
Theorem failed_property_search_skips_trends
    (db : unicode_db) (w : world) (form : search_form) (e : exn) :
  start_search form = true ->
  form_city form <> [] ->
  fst (exec (find_properties db (form_city form) (form_max_price form)
               (form_property_category form) (form_property_type form)) w)
    = Raise e ->
  reported_errors (snd (exec (main db form) w))
    = [py "❌ An error occurred: " ++ exn_str db e]
  /\ extraction_calls (snd (exec (main db form) w))
     = [property_request db (form_city form) (form_max_price form)
          (form_property_category form) (form_property_type form)]
  /\ shown StMarkdown (snd (exec (main db form) w)) = []
  /\ shown StSuccess (snd (exec (main db form) w)) = [].
Proof.
  intros Hstart Hcity Hraise.
  rewrite (main_exec db w form Hstart Hcity). cbv zeta.
  rewrite Hraise. unfold error_report.
  project_main_trace. repeat split.
Qed.

Lemma failed_property_search_skips_trends_witness :
  reported_errors (snd (exec (main caseless_db business_bay_form) extraction_down))
    = [py "❌ An error occurred: Request Timeout"]
  /\ List.length
       (extraction_calls (snd (exec (main caseless_db business_bay_form)
                                    extraction_down))) = 1%nat.
Proof.
  destruct (failed_property_search_skips_trends caseless_db extraction_down
              business_bay_form (ServiceError (py "Request Timeout"))
              eq_refl ltac:(discriminate) eq_refl)
    as (Herrors & Hcalls & _).
  split.
  - rewrite Herrors. reflexivity.
  - rewrite Hcalls. reflexivity.
Defined.

(** X5. When both pipelines return, [main] has requested the property
    extraction and then the trend extraction, shows the two texts in that
    order, announces each completion, and reports no error. *)
Theorem completed_search_shows_both_results
    (db : unicode_db) (w : world) (form : search_form) (results trends : pystr) :
  start_search form = true ->
  form_city form <> [] ->
  fst (exec (find_properties db (form_city form) (form_max_price form)
               (form_property_category form) (form_property_type form)) w)
    = Ok results ->
  fst (exec (get_location_trends db (form_city form)) w) = Ok trends ->
  shown StMarkdown (snd (exec (main db form) w)) = [results; trends]
  /\ extraction_calls (snd (exec (main db form) w))
     = [ property_request db (form_city form) (form_max_price form)
           (form_property_category form) (form_property_type form);
         trend_request db (form_city form) ]
  /\ shown StSuccess (snd (exec (main db form) w))
     = [ py "✅ Property search completed!";
         py "✅ Location analysis completed!" ]
  /\ reported_errors (snd (exec (main db form) w)) = [].
Proof.
  intros Hstart Hcity Hresults Htrends.
  rewrite (main_exec db w form Hstart Hcity). cbv zeta.
  rewrite Hresults, Htrends.
  project_main_trace. repeat split.
Qed.

Lemma completed_search_shows_both_results_witness :
  shown StMarkdown
    (snd (exec (main caseless_db business_bay_form)
               (constant_world (Ok failure_reply) (Ok a_narrative))))
  = [a_narrative; py "No price trends data available"].
Proof.
  pose proof (completed_search_shows_both_results caseless_db
                (constant_world (Ok failure_reply) (Ok a_narrative))
                business_bay_form a_narrative
                (py "No price trends data available")) as H.
  feed H reflexivity. feed H discriminate.
  feed H ltac:(vm_compute; reflexivity).
  feed H ltac:(vm_compute; reflexivity).
  exact (proj1 H).
Defined.

(** X6. When the property search returns and the trend analysis raises,
    the property results stay shown with their success message, and the
    exception of the trend analysis is the one error reported. *)
Theorem failed_trend_analysis_keeps_property_results
    (db : unicode_db) (w : world) (form : search_form) (results : pystr) (e : exn) :
  start_search form = true ->
  form_city form <> [] ->
  fst (exec (find_properties db (form_city form) (form_max_price form)
               (form_property_category form) (form_property_type form)) w)
    = Ok results ->
  fst (exec (get_location_trends db (form_city form)) w) = Raise e ->
  shown StMarkdown (snd (exec (main db form) w)) = [results]
  /\ shown StSuccess (snd (exec (main db form) w))
     = [py "✅ Property search completed!"]
  /\ reported_errors (snd (exec (main db form) w))
     = [py "❌ An error occurred: " ++ exn_str db e]
  /\ extraction_calls (snd (exec (main db form) w))
     = [ property_request db (form_city form) (form_max_price form)
           (form_property_category form) (form_property_type form);
         trend_request db (form_city form) ].
Proof.
  intros Hstart Hcity Hresults Hraise.
  rewrite (main_exec db w form Hstart Hcity). cbv zeta.
  rewrite Hresults, Hraise. unfold error_report.
  project_main_trace. repeat split.
Qed.

Lemma failed_trend_analysis_keeps_property_results_witness :
  shown StMarkdown (snd (exec (main caseless_db business_bay_form) trends_down))
  = [a_narrative].
Proof.
  pose proof (failed_trend_analysis_keeps_property_results caseless_db trends_down
                business_bay_form a_narrative
                (ServiceError (py "Request Timeout"))) as H.
  feed H reflexivity. feed H discriminate.
  feed H ltac:(vm_compute; reflexivity).
  feed H ltac:(vm_compute; reflexivity).
  exact (proj1 H).
Defined.

(** ** Every run of a pipeline *)

(** X7. Neither pipeline retries or reorders its calls: a run starts by
    printing its URL list and sending its one extraction request, sends no
    second extraction request, and sends the generator at most one
    instruction, after the extraction. *)
Theorem pipelines_call_each_service_at_most_once
    (db : unicode_db) (w : world) (city : pystr) (max_price : pyfloat)
    (category ptype : pystr) :
  (exists later,
      snd (exec (find_properties db city max_price category ptype) w)
      = EvPrint (py "Urls:") (PList (map PStr (property_urls db city ptype)))
          :: EvExtract (property_request db city max_price category ptype)
          :: later
      /\ extraction_calls later = []
      /\ (List.length (generation_calls later) <= 1)%nat)
  /\ (exists later,
         snd (exec (get_location_trends db city) w)
         = EvPrint (py "Trend Url:") (PList (map PStr (trend_urls db city)))
             :: EvExtract (trend_request db city)
             :: later
         /\ extraction_calls later = []
         /\ (List.length (generation_calls later) <= 1)%nat).
Proof.
  split.
  - rewrite find_properties_exec. cbv zeta.
    destruct (firecrawl_extract w _) as [raw|e].
    + destruct (processed_properties raw) as [properties|e];
        cbn [snd app]; eexists; (split; [reflexivity|]); cbn; split; lia || reflexivity.
    + cbn [snd]. exists []. cbn. repeat split. lia.
  - rewrite get_location_trends_exec. cbv zeta.
    destruct (firecrawl_extract w _) as [raw|e].
    + destruct (success_envelope raw) as [entries|].
      * destruct (data_field entries _) as [locations|e];
          cbn [snd app]; eexists; (split; [reflexivity|]); cbn;
          split; lia || reflexivity.
      * cbn [snd app]. eexists. split; [reflexivity|]. cbn. split; lia || reflexivity.
    + cbn [snd]. exists []. cbn. repeat split. lia.
Qed.

(** X8. A text returned by [find_properties] is always the generator's:
    the extraction returned a response, the properties were read from it,
    exactly one instruction built from them was sent, and the generator
    answered it with that text. *)
Theorem find_properties_returns_generated_text
    (db : unicode_db) (w : world) (city : pystr) (max_price : pyfloat)
    (category ptype : pystr) (content : pystr) :
  fst (exec (find_properties db city max_price category ptype) w) = Ok content ->
  exists raw properties,
    firecrawl_extract w (property_request db city max_price category ptype) = Ok raw
    /\ processed_properties raw = Ok properties
    /\ generation_calls
         (snd (exec (find_properties db city max_price category ptype) w))
       = [analysis_instruction db properties category ptype max_price]
    /\ agent_run w (analysis_instruction db properties category ptype max_price)
       = Ok content.
Proof.
  rewrite find_properties_exec. cbv zeta.
  destruct (firecrawl_extract w _) as [raw|e]; [|discriminate].
  destruct (processed_properties raw) as [properties|e] eqn:Hkept; [|discriminate].
  cbn [fst snd]. intros Hcontent.
  exists raw, properties.
  rewrite !generation_calls_app. repeat split; assumption.
Qed.

Lemma find_properties_returns_generated_text_witness :
  exists raw properties,
    firecrawl_extract (constant_world (Ok two_properties_reply) (Ok a_narrative))
      (property_request caseless_db (py "Business Bay") ten_millions
         (py "Residential") (py "Apartments")) = Ok raw
    /\ processed_properties raw = Ok properties
    /\ generation_calls
         (snd (exec (find_properties caseless_db (py "Business Bay") ten_millions
                       (py "Residential") (py "Apartments"))
                    (constant_world (Ok two_properties_reply) (Ok a_narrative))))
       = [analysis_instruction caseless_db properties (py "Residential")
            (py "Apartments") ten_millions]
    /\ agent_run (constant_world (Ok two_properties_reply) (Ok a_narrative))
         (analysis_instruction caseless_db properties (py "Residential")
            (py "Apartments") ten_millions)
       = Ok a_narrative.
Proof.
  pose proof (find_properties_returns_generated_text caseless_db
                (constant_world (Ok two_properties_reply) (Ok a_narrative))
                (py "Business Bay") ten_millions (py "Residential")
                (py "Apartments") a_narrative) as H.
  feed H ltac:(vm_compute; reflexivity).
  exact H.
Defined.

(** X9. A text returned by [get_location_trends] is either the placeholder,
    returned without any generator call for a response that is not a success
    envelope, or the generator's answer to the one instruction sent. *)
Theorem get_location_trends_returns_placeholder_or_generated_text
    (db : unicode_db) (w : world) (city : pystr) (content : pystr) :
  fst (exec (get_location_trends db city) w) = Ok content ->
  exists raw,
    firecrawl_extract w (trend_request db city) = Ok raw
    /\ ((non_success raw
         /\ content = py "No price trends data available"
         /\ generation_calls (snd (exec (get_location_trends db city) w)) = [])
        \/ (exists entries locations,
               success_envelope raw = Some entries
               /\ data_field entries (py "locations") = Ok locations
               /\ generation_calls (snd (exec (get_location_trends db city) w))
                  = [trend_instruction db city locations]
               /\ agent_run w (trend_instruction db city locations) = Ok content)).
Proof.
  rewrite get_location_trends_exec. cbv zeta.
  destruct (firecrawl_extract w _) as [raw|e]; [|discriminate].
  exists raw. split; [reflexivity|].
  destruct (success_envelope raw) as [entries|] eqn:Henv.
  - destruct (data_field entries _) as [locations|e] eqn:Hdata; [|discriminate].
    cbn [fst snd] in *. right. exists entries, locations.
    rewrite !generation_calls_app. repeat split; assumption.
  - cbn [fst snd] in *. left.
    injection H as <-.
    rewrite !generation_calls_app.
    repeat split. now apply non_success_envelope.
Qed.

Lemma get_location_trends_returns_placeholder_or_generated_text_witness :
  exists raw,
    firecrawl_extract (constant_world (Ok no_locations_reply) (Ok a_narrative))
      (trend_request caseless_db (py "Business Bay")) = Ok raw
    /\ ((non_success raw
         /\ a_narrative = py "No price trends data available"
         /\ generation_calls
              (snd (exec (get_location_trends caseless_db (py "Business Bay"))
                         (constant_world (Ok no_locations_reply) (Ok a_narrative))))
            = [])
        \/ (exists entries locations,
               success_envelope raw = Some entries
               /\ data_field entries (py "locations") = Ok locations
               /\ generation_calls
                    (snd (exec (get_location_trends caseless_db (py "Business Bay"))
                               (constant_world (Ok no_locations_reply)
                                               (Ok a_narrative))))
                  = [trend_instruction caseless_db (py "Business Bay") locations]
               /\ agent_run (constant_world (Ok no_locations_reply) (Ok a_narrative))
                    (trend_instruction caseless_db (py "Business Bay") locations)
                  = Ok a_narrative)).
Proof.
  pose proof (get_location_trends_returns_placeholder_or_generated_text
                caseless_db
                (constant_world (Ok no_locations_reply) (Ok a_narrative))
                (py "Business Bay") a_narrative) as H.
  feed H ltac:(vm_compute; reflexivity).
  exact H.
Defined.

(** ** What is read from a success envelope *)

Lemma success_envelope_of (entries : list (pystr * pyval)) (flag : pyval) :
  dict_get (py "success") entries = Some flag ->
  truthy flag = true ->
  success_envelope (PDict entries) = Some entries.
Proof.
  intros Hflag Htrue. apply success_envelope_entries.
  split; [reflexivity|]. now exists flag.
Qed.

(** X10. From a success envelope whose [data] is a dict, each pipeline takes
    [data.get(key, [])] as it is: the empty list when the key is missing,
    and otherwise the stored value, whether it is a list or not.  One
    instruction built from it goes to the generator; in particular the trend
    pipeline calls the generator, and does not return the placeholder, when
    [locations] is missing. *)
Theorem data_entry_is_passed_through
    (db : unicode_db) (city : pystr) (max_price : pyfloat)
    (category ptype : pystr)
    (entries data : list (pystr * pyval)) (flag : pyval) :
  dict_get (py "success") entries = Some flag ->
  truthy flag = true ->
  dict_get (py "data") entries = Some (PDict data) ->
  let properties :=
    match dict_get (py "properties") data with Some v => v | None => PList [] end in
  let locations :=
    match dict_get (py "locations") data with Some v => v | None => PList [] end in
  processed_properties (PDict entries) = Ok properties
  /\ (forall w,
         firecrawl_extract w (property_request db city max_price category ptype)
           = Ok (PDict entries) ->
         generation_calls
           (snd (exec (find_properties db city max_price category ptype) w))
         = [analysis_instruction db properties category ptype max_price])
  /\ (forall w,
         firecrawl_extract w (trend_request db city) = Ok (PDict entries) ->
         generation_calls (snd (exec (get_location_trends db city) w))
         = [trend_instruction db city locations]
         /\ fst (exec (get_location_trends db city) w)
            = agent_run w (trend_instruction db city locations)).
Proof.
  intros Hflag Htrue Hdata. cbv zeta.
  pose proof (processed_properties_success entries data flag Hflag Htrue Hdata)
    as Hkept.
  split; [exact Hkept|]. split.
  - intros w Hreply.
    rewrite find_properties_exec. cbv zeta.
    rewrite Hreply, Hkept. cbn [snd].
    rewrite !generation_calls_app. reflexivity.
  - intros w Hreply.
    rewrite get_location_trends_exec. cbv zeta.
    rewrite Hreply, (success_envelope_of entries flag Hflag Htrue).
    unfold data_field, getitem. rewrite Hdata.
    cbn [and_then get_default fst snd].
    rewrite !generation_calls_app. split; reflexivity.
Qed.

Lemma data_entry_is_passed_through_witness :
  processed_properties empty_data_reply = Ok (PList [])
  /\ generation_calls
       (snd (exec (get_location_trends caseless_db (py "Business Bay"))
                  (constant_world (Ok empty_data_reply) (Ok a_narrative))))
     = [trend_instruction caseless_db (py "Business Bay") (PList [])].
Proof.
  pose proof (data_entry_is_passed_through caseless_db (py "Business Bay")
                ten_millions (py "Residential") (py "Apartments")
                [(py "success", PBool true); (py "data", PDict [])] []
                (PBool true)) as H.
  feed H reflexivity. feed H reflexivity. feed H reflexivity.
  destruct H as (Hkept & _ & Htrends).
  split; [exact Hkept|].
  exact (proj1 (Htrends (constant_world (Ok empty_data_reply) (Ok a_narrative))
                  eq_refl)).
Defined.

(** X11. A success envelope whose [data] is present and is not a dict
    ([None], a list, a string, ...) makes both pipelines raise
    [AttributeError] for the missing [get]; nothing is sent to the
    generator. *)
Theorem non_dict_data_raises_attribute_error
    (db : unicode_db) (city : pystr) (max_price : pyfloat)
    (category ptype : pystr)
    (entries : list (pystr * pyval)) (flag data : pyval) :
  dict_get (py "success") entries = Some flag ->
  truthy flag = true ->
  dict_get (py "data") entries = Some data ->
  (forall d, data <> PDict d) ->
  processed_properties (PDict entries)
    = Raise (AttributeError (type_name data) (py "get"))
  /\ (forall w,
         firecrawl_extract w (property_request db city max_price category ptype)
           = Ok (PDict entries) ->
         exec (find_properties db city max_price category ptype) w
         = (Raise (AttributeError (type_name data) (py "get")),
            [ EvPrint (py "Urls:") (PList (map PStr (property_urls db city ptype)));
              EvExtract (property_request db city max_price category ptype);
              EvPrint (py "Raw Property Response:") (PDict entries) ]))
  /\ (forall w,
         firecrawl_extract w (trend_request db city) = Ok (PDict entries) ->
         exec (get_location_trends db city) w
         = (Raise (AttributeError (type_name data) (py "get")),
            [ EvPrint (py "Trend Url:") (PList (map PStr (trend_urls db city)));
              EvExtract (trend_request db city);
              EvPrint (py "Trend raw resonse:") (PDict entries) ])).
Proof.
  intros Hflag Htrue Hdata Hshape.
  assert (Hfield : forall field,
             data_field entries field
             = Raise (AttributeError (type_name data) (py "get"))).
  { intros field. unfold data_field, getitem. rewrite Hdata.
    cbn [and_then]. destruct data; try reflexivity.
    now destruct (Hshape entries0). }
  assert (Hkept : processed_properties (PDict entries)
                  = Raise (AttributeError (type_name data) (py "get"))).
  { unfold processed_properties.
    rewrite (success_envelope_of entries flag Hflag Htrue). apply Hfield. }
  split; [exact Hkept|]. split.
  - intros w Hreply.
    rewrite find_properties_exec. cbv zeta.
    now rewrite Hreply, Hkept.
  - intros w Hreply.
    rewrite get_location_trends_exec. cbv zeta.
    now rewrite Hreply, (success_envelope_of entries flag Hflag Htrue), Hfield.
Qed.

Lemma non_dict_data_raises_attribute_error_witness :
  processed_properties null_data_reply
  = Raise (AttributeError (py "NoneType") (py "get")).
Proof.
  pose proof (non_dict_data_raises_attribute_error caseless_db (py "Business Bay")
                ten_millions (py "Residential") (py "Apartments")
                [(py "success", PBool true); (py "data", PNone)]
                (PBool true) PNone) as H.
  feed H reflexivity. feed H reflexivity. feed H reflexivity.
  feed H ltac:(intros d; discriminate).
  exact (proj1 H).
Defined.

(** X12. Only the [success] and [data] entries of a response are read: two
    dict responses that agree on these two entries, whatever their other
    keys ([status], [expiresAt], ...), give the same properties, the same
    outcome and the same generator instructions in both pipelines. *)
Theorem other_envelope_keys_are_ignored
    (db : unicode_db) (city : pystr) (max_price : pyfloat)
    (category ptype : pystr) (content : outcome pystr)
    (entries1 entries2 : list (pystr * pyval)) :
  dict_get (py "success") entries1 = dict_get (py "success") entries2 ->
  dict_get (py "data") entries1 = dict_get (py "data") entries2 ->
  processed_properties (PDict entries1) = processed_properties (PDict entries2)
  /\ fst (exec (find_properties db city max_price category ptype)
               (constant_world (Ok (PDict entries1)) content))
     = fst (exec (find_properties db city max_price category ptype)
                 (constant_world (Ok (PDict entries2)) content))
  /\ generation_calls
       (snd (exec (find_properties db city max_price category ptype)
                  (constant_world (Ok (PDict entries1)) content)))
     = generation_calls
         (snd (exec (find_properties db city max_price category ptype)
                    (constant_world (Ok (PDict entries2)) content)))
  /\ fst (exec (get_location_trends db city)
               (constant_world (Ok (PDict entries1)) content))
     = fst (exec (get_location_trends db city)
                 (constant_world (Ok (PDict entries2)) content))
  /\ generation_calls
       (snd (exec (get_location_trends db city)
                  (constant_world (Ok (PDict entries1)) content)))
     = generation_calls
         (snd (exec (get_location_trends db city)
                    (constant_world (Ok (PDict entries2)) content))).
Proof.
  intros Hsuccess Hdata.
  assert (Hfield : forall field, data_field entries1 field = data_field entries2 field).
  { intros field. unfold data_field, getitem. now rewrite Hdata. }
  assert (Hkept : processed_properties (PDict entries1)
                  = processed_properties (PDict entries2)).
  { unfold processed_properties, success_envelope. rewrite Hsuccess.
    destruct (dict_get (py "success") entries2) as [flag|]; [|reflexivity].
    destruct (truthy flag); [apply Hfield | reflexivity]. }
  split; [exact Hkept|].
  rewrite !find_properties_exec, !get_location_trends_exec. cbv zeta.
  cbn [constant_world firecrawl_extract agent_run].
  rewrite Hkept.
  unfold success_envelope. rewrite Hsuccess.
  destruct (dict_get (py "success") entries2) as [flag|].
  - destruct (truthy flag).
    + rewrite Hfield.
      destruct (processed_properties (PDict entries2)) as [properties|e];
        destruct (data_field entries2 (py "locations")) as [locations|e'];
        cbn [fst snd]; rewrite ?generation_calls_app; repeat split.
    + destruct (processed_properties (PDict entries2)) as [properties|e];
        cbn [fst snd]; rewrite ?generation_calls_app; repeat split.
  - destruct (processed_properties (PDict entries2)) as [properties|e];
      cbn [fst snd]; rewrite ?generation_calls_app; repeat split.
Qed.

Lemma other_envelope_keys_are_ignored_witness :
  processed_properties two_properties_reply
  = processed_properties
      (PDict [ (py "data", PDict [ (py "properties",
                                    PList [marina_gate; marina_gate]) ]);
               (py "success", PBool true) ]).
Proof.
  pose proof (other_envelope_keys_are_ignored caseless_db (py "Business Bay")
                ten_millions (py "Residential") (py "Apartments") (Ok a_narrative)
                [ (py "success", PBool true);
                  (py "data", PDict [ (py "properties",
                                       PList [marina_gate; marina_gate]) ]);
                  (py "status", PStr (py "completed"));
                  (py "expiresAt", PStr (py "2025-01-01T00:00:00.000Z")) ]
                [ (py "data", PDict [ (py "properties",
                                       PList [marina_gate; marina_gate]) ]);
                  (py "success", PBool true) ]) as H.
  feed H reflexivity. feed H reflexivity.
  exact (proj1 H).
Defined.

(** ** More on URL segments *)

Lemma lstrip_spaces (lead x : pystr) :
  forallb isspace lead = true -> lstrip (lead ++ x) = lstrip x.
Proof.
  induction lead as [|c lead IH]; intros H; [reflexivity|].
  cbn [forallb] in H. apply andb_true_iff in H as [Hc Hlead].
  cbn [app lstrip]. rewrite Hc. now apply IH.
Qed.

Lemma lstrip_all_spaces (s : pystr) :
  forallb isspace s = true -> lstrip s = [].
Proof.
  intros H. rewrite <- (app_nil_r s). now rewrite lstrip_spaces.
Qed.

Lemma lstrip_app (s t : pystr) :
  lstrip (s ++ t) = if forallb isspace s then lstrip t else lstrip s ++ t.
Proof.
  induction s as [|c s IH]; [reflexivity|].
  cbn [app lstrip forallb]. destruct (isspace c); [exact IH | reflexivity].
Qed.

Lemma rstrip_spaces (x trail : pystr) :
  forallb isspace trail = true -> rstrip (x ++ trail) = rstrip x.
Proof.
  intros H. unfold rstrip.
  rewrite rev_app_distr, lstrip_spaces; [reflexivity|].
  now rewrite forallb_rev.
Qed.

Lemma strip_margins (lead s trail : pystr) :
  forallb isspace lead = true ->
  forallb isspace trail = true ->
  strip (lead ++ s ++ trail) = strip s.
Proof.
  intros Hlead Htrail. unfold strip.
  rewrite (lstrip_spaces lead _ Hlead), lstrip_app.
  destruct (forallb isspace s) eqn:Hs.
  - now rewrite (lstrip_all_spaces trail Htrail), (lstrip_all_spaces s Hs).
  - now apply rstrip_spaces.
Qed.

(** X13. Whitespace around the city or the property type does not change
    the URLs: any whitespace characters before and after the text are
    dropped before the segment is built. *)
Theorem formatted_ignores_margins
    (db : unicode_db) (lead s trail other : pystr) :
  forallb isspace lead = true ->
  forallb isspace trail = true ->
  formatted db (lead ++ s ++ trail) = formatted db s
  /\ trend_urls db (lead ++ s ++ trail) = trend_urls db s
  /\ property_urls db (lead ++ s ++ trail) other = property_urls db s other
  /\ property_urls db other (lead ++ s ++ trail) = property_urls db other s.
Proof.
  intros Hlead Htrail.
  assert (H : formatted db (lead ++ s ++ trail) = formatted db s).
  { unfold formatted. now rewrite strip_margins. }
  unfold trend_urls, property_urls. cbv zeta. rewrite H. repeat split.
Qed.

Lemma formatted_ignores_margins_witness :
  formatted caseless_db (py "  " ++ py "Business Bay" ++ py " ")
  = formatted caseless_db (py "Business Bay").
Proof.
  pose proof (formatted_ignores_margins caseless_db (py "  ")
                (py "Business Bay") (py " ") (py "Apartments")) as H.
  feed H reflexivity. feed H reflexivity.
  exact (proj1 H).
Defined.

(** X14. The case of ASCII letters does not change the URLs: two ASCII
    spellings of a city that differ only in upper and lower case give the
    same segment and the same area-insights URL. *)
Theorem formatted_ignores_ascii_case (db : unicode_db) (a b : pystr) :
  forallb is_ascii a = true ->
  forallb is_ascii b = true ->
  map ascii_lower a = map ascii_lower b ->
  formatted db a = formatted db b
  /\ trend_urls db a = trend_urls db b.
Proof.
  intros Ha Hb Hsame.
  assert (H : formatted db a = formatted db b).
  { rewrite !formatted_map.
    rewrite (lower_ascii db _ (strip_ascii a Ha)), (lower_ascii db _ (strip_ascii b Hb)).
    rewrite <- !(strip_map ascii_lower _ isspace_ascii_lower).
    now rewrite Hsame. }
  unfold trend_urls. cbv zeta. now rewrite H.
Qed.

Lemma formatted_ignores_ascii_case_witness :
  formatted caseless_db (py "BUSINESS Bay") = formatted caseless_db (py "business bay").
Proof.
  pose proof (formatted_ignores_ascii_case caseless_db
                (py "BUSINESS Bay") (py "business bay")) as H.
  feed H reflexivity. feed H reflexivity. feed H reflexivity.
  exact (proj1 H).
Defined.

(** X15. A city made of whitespace only gives the empty segment: the
    area-insights URL ends at the site's [dubai/] path, and the property URL
    has nothing between [-for-sale-] and [.html]. *)
Theorem blank_city_gives_empty_segment (db : unicode_db) (city ptype : pystr) :
  forallb isspace city = true ->
  formatted db city = []
  /\ trend_urls db city
     = [py "https://www.propertyfinder.ae/en/area-insights/dubai/"]
  /\ property_urls db city ptype
     = [ py "https://www.propertyfinder.ae/en/buy/dubai/" ++ formatted db ptype
         ++ py "-for-sale-" ++ py ".html" ].
Proof.
  intros Hblank.
  assert (H : formatted db city = []).
  { rewrite formatted_map. unfold strip.
    now rewrite (lstrip_all_spaces city Hblank). }
  unfold trend_urls, property_urls. cbv zeta. rewrite H.
  rewrite app_nil_r. repeat split.
Qed.

Lemma blank_city_gives_empty_segment_witness :
  trend_urls caseless_db (py "   ")
  = [py "https://www.propertyfinder.ae/en/area-insights/dubai/"].
Proof.
  pose proof (blank_city_gives_empty_segment caseless_db (py "   ")
                (py "Apartments")) as H.
  feed H reflexivity.
  exact (proj1 (proj2 H)).
Defined.

Lemma formatted_no_space (db : unicode_db) (s : pystr) :
  existsb (N.eqb 32) (formatted db s) = false.
Proof. rewrite formatted_map. apply space_to_hyphen_no_space. Qed.

(** X16. No URL sent to the extraction service contains a space character,
    whatever the city and the property type are. *)
Theorem urls_have_no_space (db : unicode_db) (city ptype : pystr) :
  forallb (fun url => negb (existsb (N.eqb 32) url))
          (property_urls db city ptype ++ trend_urls db city) = true.
Proof.
  unfold property_urls, trend_urls. cbv zeta. cbn [app forallb].
  rewrite !existsb_app, !formatted_no_space.
  vm_compute. reflexivity.
Qed.

(** Normalizing a segment again. *)

Lemma trimmed_strip (s : pystr) : trimmed (strip s) = true.
Proof.
  unfold trimmed. apply andb_true_iff. split.
  - destruct (strip s) as [|c r] eqn:E; [reflexivity|].
    now rewrite (strip_head s r c E).
  - destruct (rev (strip s)) as [|c r] eqn:E; [reflexivity|].
    apply (f_equal (@rev N)) in E. rewrite rev_involutive in E. cbn [rev] in E.
    now rewrite (strip_last s (rev r) c E).
Qed.

Lemma strip_trimmed (x : pystr) : trimmed x = true -> strip x = x.
Proof.
  unfold trimmed. intros H. apply andb_true_iff in H as [Hhead Hlast].
  assert (Hl : lstrip x = x).
  { destruct x as [|c r]; [reflexivity|]. cbn [lstrip].
    now destruct (isspace c). }
  unfold strip, rstrip. rewrite Hl.
  destruct (rev x) as [|c r] eqn:E.
  - apply (f_equal (@rev N)) in E. now rewrite rev_involutive in E.
  - cbn [lstrip]. destruct (isspace c); [discriminate|].
    rewrite <- E. apply rev_involutive.
Qed.

Lemma segment_char_not_space (c : N) :
  isspace c = false -> isspace (space_to_hyphen (ascii_lower c)) = false.
Proof.
  intros Hc. unfold space_to_hyphen.
  destruct (N.eqb_spec (ascii_lower c) 32) as [E|_].
  - rewrite <- isspace_ascii_lower, E in Hc. discriminate.
  - now rewrite isspace_ascii_lower.
Qed.

Lemma segment_char_ascii (c : N) :
  is_ascii c = true -> is_ascii (space_to_hyphen (ascii_lower c)) = true.
Proof.
  unfold is_ascii, space_to_hyphen, ascii_lower. intros Hc.
  apply N.ltb_lt in Hc.
  destruct ((65 <=? c) && (c <=? 90))%N eqn:Hup.
  - apply andb_true_iff in Hup as [Hlo Hhi]. apply N.leb_le in Hlo, Hhi.
    destruct (N.eqb_spec (c + 32) 32); apply N.ltb_lt; lia.
  - destruct (N.eqb_spec c 32); apply N.ltb_lt; lia.
Qed.

Lemma segment_char_fixed (c : N) :
  space_to_hyphen (ascii_lower (space_to_hyphen (ascii_lower c)))
  = space_to_hyphen (ascii_lower c).
Proof.
  unfold space_to_hyphen, ascii_lower.
  destruct ((65 <=? c) && (c <=? 90))%N eqn:Hup.
  - apply andb_true_iff in Hup as [Hlo Hhi]. apply N.leb_le in Hlo, Hhi.
    destruct (N.eqb_spec (c + 32) 32); [lia|].
    destruct ((65 <=? c + 32) && (c + 32 <=? 90))%N eqn:Hup2.
    + apply andb_true_iff in Hup2 as [_ Hhi2]. apply N.leb_le in Hhi2. lia.
    + destruct (N.eqb_spec (c + 32) 32); [lia | reflexivity].
  - destruct (N.eqb_spec c 32) as [->|Hc]; [reflexivity|].
    rewrite Hup. now destruct (N.eqb_spec c 32).
Qed.

Lemma trimmed_segment (t : pystr) :
  trimmed t = true ->
  trimmed (map (fun c => space_to_hyphen (ascii_lower c)) t) = true.
Proof.
  unfold trimmed. intros H. apply andb_true_iff in H as [Hhead Hlast].
  rewrite <- map_rev. apply andb_true_iff. split.
  - destruct t as [|c r]; [reflexivity|]. cbn [map].
    apply negb_true_iff in Hhead. now rewrite (segment_char_not_space c Hhead).
  - destruct (rev t) as [|c r]; [reflexivity|]. cbn [map].
    apply negb_true_iff in Hlast. now rewrite (segment_char_not_space c Hlast).
Qed.

Lemma formatted_ascii (db : unicode_db) (s : pystr) :
  forallb is_ascii s = true ->
  formatted db s = map (fun c => space_to_hyphen (ascii_lower c)) (strip s).
Proof.
  intros Hascii.
  rewrite formatted_map, (lower_ascii db _ (strip_ascii s Hascii)).
  apply map_map.
Qed.

(** X17. On ASCII input the normalization is idempotent: a segment that
    has been built is left unchanged when it is normalized again, so a city
    may be given in the form it has in the URL. *)
Theorem formatted_is_idempotent_on_ascii (db : unicode_db) (s : pystr) :
  forallb is_ascii s = true ->
  formatted db (formatted db s) = formatted db s
  /\ trend_urls db (formatted db s) = trend_urls db s.
Proof.
  intros Hascii.
  assert (H : formatted db (formatted db s) = formatted db s).
  { rewrite (formatted_ascii db s Hascii).
    set (segment := map (fun c => space_to_hyphen (ascii_lower c)) (strip s)).
    assert (Hseg : forallb is_ascii segment = true).
    { unfold segment.
      pose proof (strip_ascii s Hascii) as Hs.
      rewrite forallb_forall in *. intros c Hc.
      apply in_map_iff in Hc as (c0 & <- & Hc0).
      apply segment_char_ascii. now apply Hs. }
    rewrite (formatted_ascii db segment Hseg).
    rewrite (strip_trimmed segment (trimmed_segment _ (trimmed_strip s))).
    unfold segment. rewrite map_map.
    apply map_ext. intros c. apply segment_char_fixed. }
  unfold trend_urls. cbv zeta. now rewrite H.
Qed.

Lemma formatted_is_idempotent_on_ascii_witness :
  formatted caseless_db (formatted caseless_db (py " Business Bay "))
  = formatted caseless_db (py " Business Bay ").
Proof.
  pose proof (formatted_is_idempotent_on_ascii caseless_db
                (py " Business Bay ")) as H.
  feed H reflexivity.
  exact (proj1 H).
Defined.

(** ** What the generator is asked *)

Ltac inside_piece := apply Infix_earlier; within_piece.

(** X18. Whatever the properties and the criteria are (an empty collection
    included), the instruction of [find_properties] states the three
    criteria, forbids new categories and types, asks for the 5-6 properties
    priced closest to the maximum, and asks for the five sections
    SELECTED PROPERTIES, BEST VALUE ANALYSIS, LOCATION INSIGHTS,
    RECOMMENDATIONS and NEGOTIATION TIPS. *)
Theorem analysis_instruction_states_criteria_and_sections
    (db : unicode_db) (properties : pyval) (category ptype : pystr)
    (max_price : pyfloat) :
  let sent := analysis_instruction db properties category ptype max_price in
  Infix (py "- Property Category: " ++ category ++ py "
") sent
  /\ Infix (py "- Property Type: " ++ ptype ++ py "
") sent
  /\ Infix (py "- Maximum Price: " ++ float_repr max_price ++ py " millions") sent
  /\ Infix (py "2. DO NOT create new categories or property types") sent
  /\ Infix (py "select 5-6 properties with prices closest to "
            ++ float_repr max_price ++ py " millions") sent
  /\ Infix (py "🏠 SELECTED PROPERTIES") sent
  /\ Infix (py "💰 BEST VALUE ANALYSIS") sent
  /\ Infix (py "📍 LOCATION INSIGHTS") sent
  /\ Infix (py "💡 RECOMMENDATIONS") sent
  /\ Infix (py "🤝 NEGOTIATION TIPS") sent.
Proof.
  cbv zeta. unfold analysis_instruction.
  split; [do 2 apply Infix_later; across_pieces|].
  split; [do 4 apply Infix_later; across_pieces|].
  split; [do 6 apply Infix_later; across_pieces|].
  split; [do 8 apply Infix_later; inside_piece|].
  split; [do 8 apply Infix_later; across_pieces|].
  split; [do 10 apply Infix_later; inside_piece|].
  repeat split; do 12 apply Infix_later; within_piece.
Qed.

(** X19. The instruction of [get_location_trends] names the city as it was
    typed (not its URL segment), contains the locations as they were read
    from the response, and asks for the four sections LOCATION TRENDS
    SUMMARY, TOP PERFORMING AREAS, INVESTMENT INSIGHTS and
    RECOMMENDATIONS. *)
Theorem trend_instruction_names_city_and_sections
    (db : unicode_db) (city : pystr) (locations : pyval) :
  let sent := trend_instruction db city locations in
  Infix (py "analyze these location price trends for " ++ city ++ py ":") sent
  /\ Infix (py_str db locations) sent
  /\ Infix (py "📊 LOCATION TRENDS SUMMARY") sent
  /\ Infix (py "🏆 TOP PERFORMING AREAS") sent
  /\ Infix (py "💡 INVESTMENT INSIGHTS") sent
  /\ Infix (py "🎯 RECOMMENDATIONS") sent.
Proof.
  cbv zeta. unfold trend_instruction.
  split; [across_pieces|].
  split; [do 3 apply Infix_later; apply Infix_here|].
  repeat split; do 4 apply Infix_later; within_piece.
Qed.

(** ** The agent kept in the session *)

Lemma pystr_eqb_refl (a : pystr) : pystr_eqb a a = true.
Proof.
  induction a as [|c a IH]; [reflexivity|].
  cbn [pystr_eqb]. now rewrite N.eqb_refl.
Qed.

Lemma pystr_eqb_eq (a b : pystr) : pystr_eqb a b = true -> a = b.
Proof.
  revert b; induction a as [|c a IH]; intros [|d b] H; try discriminate;
    [reflexivity|].
  cbn [pystr_eqb] in H. apply andb_true_iff in H as [Hc Hrest].
  apply N.eqb_eq in Hc. subst d. f_equal. now apply IH.
Qed.

Lemma session_get_set (key : pystr) (agent : world) (s : session_state) :
  session_get key (session_set key agent s) = Some agent.
Proof.
  induction s as [|[k old] s IH]; cbn [session_set session_get].
  - now rewrite pystr_eqb_refl.
  - destruct (pystr_eqb k key) eqn:E; cbn [session_get]; now rewrite E.
Qed.

Lemma session_get_set_other (key other : pystr) (agent : world) (s : session_state) :
  other <> key ->
  session_get other (session_set key agent s) = session_get other s.
Proof.
  intros Hother.
  induction s as [|[k old] s IH]; cbn [session_set session_get].
  - destruct (pystr_eqb key other) eqn:E; [|reflexivity].
    apply pystr_eqb_eq in E. now destruct Hother.
  - destruct (pystr_eqb k key) eqn:E; cbn [session_get].
    + apply pystr_eqb_eq in E. subst k.
      destruct (pystr_eqb key other) eqn:E'; [|reflexivity].
      apply pystr_eqb_eq in E'. now destruct Hother.
    + now rewrite IH.
Qed.

(** X20. [create_property_agent] leaves an agent in the session: the one
    already stored when there is one, a fresh one otherwise.  A second call
    changes nothing, even with another fresh agent at hand, and every other
    key of the session keeps its value. *)
Theorem create_property_agent_keeps_stored_agent
    (fresh other_fresh : world) (s : session_state) :
  session_get (py "property_agent") (create_property_agent fresh s)
  = Some (match session_get (py "property_agent") s with
          | Some stored => stored
          | None => fresh
          end)
  /\ create_property_agent other_fresh (create_property_agent fresh s)
     = create_property_agent fresh s
  /\ (forall key,
         key <> py "property_agent" ->
         session_get key (create_property_agent fresh s) = session_get key s).
Proof.
  assert (Hget : session_get (py "property_agent") (create_property_agent fresh s)
                 = Some (match session_get (py "property_agent") s with
                         | Some stored => stored
                         | None => fresh
                         end)).
  { unfold create_property_agent.
    destruct (session_get (py "property_agent") s) as [stored|] eqn:E.
    - exact E.
    - apply session_get_set. }
  split; [exact Hget|]. split.
  - unfold create_property_agent at 1. now rewrite Hget.
  - intros key Hkey. unfold create_property_agent.
    destruct (session_get (py "property_agent") s); [reflexivity|].
    now apply session_get_set_other.
Qed.
